(** * HiPS tile metadata: a shallow embedding of [hips.tiles.tile_meta]
      and [hips.utils.healpix]

    The two Python modules are thin glue over healpy, numpy, astropy and
    scikit-image.  The glue is embedded as it is written: attribute reads
    on [self] go through a state-and-exception monad over the instance,
    external library calls are operations of an interface class, floats
    are binary64 ([PrimFloat]), Python integers are [Z], and an arbitrary
    Python object is a finite map from attribute names to values. *)

From Stdlib Require Import ZArith Lia Ascii String Floats.PrimFloat.
From stdpp Require Import base tactics option list strings gmap pretty.

Local Open Scope Z_scope.
Local Open Scope string_scope.

(** ** Python runtime fragments *)
Module Py.

(** Exceptions that can travel through the embedded code. *)
Inductive exn : Type :=
| AttributeError (name : string)
| ValueError (msg : string)
| LibraryError (msg : string).

(** The outcome of evaluating a Python expression. *)
Inductive result (A : Type) : Type :=
| Ok (a : A)
| Raise (e : exn).
Arguments Ok {A} a.
Arguments Raise {A} e.

Definition result_bind {A B} (f : A → result B) (r : result A) : result B :=
  match r with
  | Ok a => f a
  | Raise e => Raise e
  end.

#[global] Instance result_ret : MRet result := λ A a, Ok a.
#[global] Instance result_mbind : MBind result := λ A B f r, result_bind f r.

(** Attribute values of the objects that [__eq__] may be handed. *)
Inductive value : Type :=
| VInt (n : Z)
| VStr (s : string)
| VNone.

(** [x == y] on values: integers and strings compare by content, values
    of different kinds are unequal, [None == None]. *)
Definition py_eq (x y : value) : bool :=
  match x, y with
  | VInt a, VInt b => bool_decide (a = b)
  | VStr a, VStr b => bool_decide (a = b)
  | VNone, VNone => true
  | _, _ => false
  end.

(** An object seen through its attribute dictionary. *)
Abbreviation pyobj := (gmap string value).

(** [obj.name] *)
Definition getattr (obj : pyobj) (name : string) : result value :=
  match obj !! name with
  | Some v => Ok v
  | None => Raise (AttributeError name)
  end.

(** [str(n)] for an [int]: decimal digits, a leading minus sign for
    negative numbers. *)
Definition str (n : Z) : string := pretty n.

(** [sep.join(parts)] *)
Fixpoint join (sep : string) (parts : list string) : string :=
  match parts with
  | [] => ""
  | [p] => p
  | p :: ps => p +:+ sep +:+ join sep ps
  end.

(** [s.split(sep)] for a one-character separator. *)
Fixpoint split (sep : Ascii.ascii) (s : string) : list string :=
  match s with
  | EmptyString => [""]
  | String c s' =>
      if Ascii.eqb c sep then "" :: split sep s'
      else match split sep s' with
           | [] => [String c ""]
           | w :: ws => String c w :: ws
           end
  end.

End Py.
Export Py.

(** ** pathlib, POSIX flavour *)
Module Pathlib.

(** A pure path: its root ([""], ["/"] or ["//"]) and its components. *)
Record Path : Type := mkPath { root : string; names : list string }.

Definition keep_name (s : string) : bool :=
  negb (bool_decide (s = "")) && negb (bool_decide (s = ".")).

(** Root of one segment: exactly two leading slashes are kept, any
    other number of them collapses to one. *)
Definition parse_root (s : string) : string :=
  match s with
  | String "/"%char (String "/"%char (String "/"%char _)) => "/"
  | String "/"%char (String "/"%char _) => "//"
  | String "/"%char _ => "/"
  | _ => ""
  end.

Definition parse (s : string) : Path :=
  mkPath (parse_root s) (filter (λ n, Is_true (keep_name n)) (split "/"%char s)).

(** Joining: a rooted right operand replaces the left one. *)
Definition joinpath (p q : Path) : Path :=
  if bool_decide (root q = "") then mkPath (root p) (names p ++ names q)
  else q.

(** [Path(seg1, seg2, ...)] *)
Definition Path_new (segments : list string) : Path :=
  foldl joinpath (mkPath "" []) (parse <$> segments).

(** [p / s] *)
Definition truediv (p : Path) (s : string) : Path := joinpath p (parse s).

(** [str(p)]: the root followed by the components with slashes between
    them; the empty relative path is written as a dot. *)
Definition Path_str (p : Path) : string :=
  match root p, names p with
  | "", [] => "."
  | r, ns => r +:+ join "/" ns
  end.

End Pathlib.
Export Pathlib.

(** ** numpy arrays of rank one and two *)
Module Numpy.

(** [np.pi], the binary64 nearest to the circle constant. *)
Definition pi : float := 0x1.921fb54442d18p+1%float.

(** [c - a] for a scalar [c] and a rank-one array [a] (broadcast). *)
Definition rsub (c : float) (a : list float) : list float :=
  (λ x, PrimFloat.sub c x) <$> a.

Section Rank2.
Context {A : Type}.

(** Number of columns of a rank-two array held as a list of rows. *)
Definition ncols (m : list (list A)) : nat :=
  match m with
  | [] => 0%nat
  | r :: _ => length r
  end.

Definition column (j : nat) (m : list (list A)) : list A :=
  omap (λ r : list A, r !! j) m.

(** [np.transpose(m)] and [m.T] *)
Definition transpose (m : list (list A)) : list (list A) :=
  (λ j, column j m) <$> seq 0 (ncols m).

Fixpoint chunks (rows cols : nat) (l : list A) : list (list A) :=
  match rows with
  | O => []
  | S rows' => take cols l :: chunks rows' cols (drop cols l)
  end.

(** [m.reshape((rows, cols))], row-major; the element count must
    agree. *)
Definition reshape (m : list (list A)) (rows cols : nat)
  : result (list (list A)) :=
  let flat := concat m in
  if bool_decide (length flat = (rows * cols)%nat)
  then Ok (chunks rows cols flat)
  else Raise (ValueError "cannot reshape array").

(** [np.array((xs, ys))] for a pair of rank-one arrays. *)
Definition array_of_pair (p : list A * list A) : result (list (list A)) :=
  if bool_decide (length p.1 = length p.2)
  then Ok [p.1; p.2]
  else Raise (ValueError "inhomogeneous shape").
End Rank2.

(** The element types [np.array] can settle on for Python integers. *)
Inductive dtype : Type := int64 | uint64 | float64 | object.

(** A rank-two array built from integers: its element type and its
    entries.  Every binary64 number of magnitude [2^53] or more is an
    integer, so the entries of a [float64] array built from integers are
    held by the integers they denote. *)
Record ndarray : Type := mk_ndarray {
  arr_dtype : dtype;
  arr_rows : list (list Z)
}.

(** The type one Python integer asks for: [int64] when it fits, else
    [uint64] when it fits, else a Python object. *)
Definition int_dtype (v : Z) : dtype :=
  if bool_decide (- 2 ^ 63 ≤ v < 2 ^ 63)%Z then int64
  else if bool_decide (2 ^ 63 ≤ v < 2 ^ 64)%Z then uint64
  else object.

(** Type promotion: signed and unsigned 64-bit integers only meet in
    [float64]; an object entry makes the whole array an object array. *)
Definition promote (a b : dtype) : dtype :=
  match a, b with
  | object, _ | _, object => object
  | float64, _ | _, float64 => float64
  | int64, int64 => int64
  | uint64, uint64 => uint64
  | int64, uint64 | uint64, int64 => float64
  end.

Definition result_dtype (vs : list Z) : dtype :=
  match vs with
  | [] => float64
  | v :: vs' => foldl promote (int_dtype v) (int_dtype <$> vs')
  end.

(** The binary64 number nearest to an integer of magnitude below
    [2^1024], ties to even: integers of at most 53 bits are kept, longer
    ones lose their low bits. *)
Definition round_binary64 (v : Z) : Z :=
  let a := Z.abs v in
  let bits := (Z.log2 a + 1)%Z in
  if bool_decide (bits ≤ 53)%Z then v
  else
    let s := (bits - 53)%Z in
    let q := (a / 2 ^ s)%Z in
    let r := (a mod 2 ^ s)%Z in
    let half := (2 ^ (s - 1))%Z in
    let q' := if bool_decide (r < half)%Z then q
              else if bool_decide (half < r)%Z then (q + 1)%Z
              else (q + q mod 2)%Z in
    (Z.sgn v * (q' * 2 ^ s))%Z.

(** [np.array(rows)] for a nested list of Python integers. *)
Definition array (rows : list (list Z)) : ndarray :=
  let dt := result_dtype (concat rows) in
  mk_ndarray dt
    match dt with
    | float64 => (λ row : list Z, round_binary64 <$> row) <$> rows
    | _ => rows
    end.

End Numpy.
Export Numpy.

(** ** astropy, scikit-image and healpy: what the glue code sees of them *)

(** The keyword arguments of a [SkyCoord(...)] call: the pair of names
    under which the two angle arrays are passed, the unit and the frame. *)
Inductive SkyCoord_kwargs : Type :=
| kw_l_b (l b : list float) (unit frame : string)
| kw_ra_dec (ra dec : list float) (unit frame : string).

(** The library routines the sources call and do not define. *)
Class Libraries : Type := {
  SkyCoord : Type;
  WCS : Type;
  ProjectiveTransform : Type;
  (** [healpy.boundaries(nside, pix, nest=nest)], an array of shape (3, 4) *)
  healpy_boundaries : Z → Z → bool → result (list (list float));
  (** [healpy.vec2ang(vectors)] for an array of shape (N, 3) *)
  healpy_vec2ang : list (list float) → result (list float * list float);
  (** [SkyCoord(...)] with keyword arguments: astropy checks the frame name and the angles
      and may refuse them *)
  astropy_SkyCoord : SkyCoord_kwargs → result SkyCoord;
  (** [coords.to_pixel(wcs)] *)
  to_pixel : SkyCoord → WCS → result (list float * list float);
  (** [tf.ProjectiveTransform()] *)
  tf_ProjectiveTransform : ProjectiveTransform;
  (** [pt.estimate(src, dst)]: the transform after the call and the
      success flag the call returns *)
  tf_estimate : ProjectiveTransform → list (list float) → ndarray →
                result (ProjectiveTransform * bool)
}.

(** Modelled from the spec: [healpy.order2nside], a routine of the healpy
    library whose code is not among the sources.  The spec gives
    [nside = 2^order] for every valid [order ≥ 0]; an order below zero is
    not a valid one and is answered with the library's error. *)
Definition order2nside (order : Z) : result Z :=
  if bool_decide (0 ≤ order)%Z then Ok (2 ^ order)%Z
  else Raise (ValueError "invalid order").

(** ** hips.utils.healpix *)
Module Healpix.

(** [boundaries(nside, pix, nest=False)] *)
Definition boundaries `{Libraries} (nside pix : Z) (nest : option bool)
  : result (list float * list float) :=
  let nest := default false nest in
  boundary_coords ← healpy_boundaries nside pix nest;
  '(theta, phi) ← healpy_vec2ang (transpose boundary_coords);
  mret (theta, phi).

End Healpix.
Export Healpix.

(** ** hips.tiles.tile_meta *)
Module TileMeta.

(** The attributes [__init__] stores on an instance. *)
Record HipsTileMeta : Type := mkHipsTileMeta {
  order : Z;
  ipix : Z;
  file_format : string;
  frame : string;
  tile_width : Z
}.

(** [HipsTileMeta(order, ipix, file_format, frame='galactic',
    tile_width=512)] *)
Definition __init__ (o i : Z) (ff : string) (fr : option string)
  (tw : option Z) : HipsTileMeta :=
  {| order := o; ipix := i; file_format := ff;
     frame := default "galactic" fr; tile_width := default 512 tw |}.

(** The attribute dictionary of an instance. *)
Definition obj_of (t : HipsTileMeta) : pyobj :=
  {[ "order" := VInt (order t); "ipix" := VInt (ipix t);
     "file_format" := VStr (file_format t); "frame" := VStr (frame t);
     "tile_width" := VInt (tile_width t) ]}.

(** A method body: it runs against the instance [self], may raise, and
    hands back the instance as it left it. *)
Definition Method (A : Type) : Type :=
  HipsTileMeta → result A * HipsTileMeta.

#[global] Instance Method_ret : MRet Method := λ A a self, (Ok a, self).
#[global] Instance Method_bind : MBind Method := λ A B f m self,
  match m self with
  | (Ok a, self') => f a self'
  | (Raise e, self') => (Raise e, self')
  end.

(** [self.attr] *)
Definition read {A} (attr : HipsTileMeta → A) : Method A :=
  λ self, (Ok (attr self), self).

(** A call that is not handed [self]. *)
Definition call {A} (r : result A) : Method A := λ self, (r, self).

(** [x and y] on booleans: [y] is evaluated only when [x] is true. *)
Definition py_and (x y : Method bool) : Method bool :=
  b ← x; if b : bool then y else mret false.

(** [self.attr == other.attr] *)
Definition attr_eq (mine : Method value) (other : pyobj) (name : string)
  : Method bool :=
  a ← mine; b ← call (getattr other name); mret (py_eq a b).

Definition __eq__ (other : pyobj) : Method bool :=
  py_and (attr_eq (read (VInt ∘ order)) other "order")
    (py_and (attr_eq (read (VInt ∘ ipix)) other "ipix")
       (py_and (attr_eq (read (VStr ∘ file_format)) other "file_format")
          (attr_eq (read (VInt ∘ tile_width)) other "tile_width"))).

Definition path : Method Path :=
  mret (Path_new ["hips"; "tiles"; "tests"; "data"]).

Definition filename : Method string :=
  i ← read ipix;
  ff ← read file_format;
  mret (join "" ["Npix"; str i; "."; ff]).

Definition full_path : Method Path :=
  p ← path;
  f ← filename;
  mret (truediv p f).

Definition nside : Method Z :=
  o ← read order;
  call (order2nside o).

Definition dst : Method ndarray :=
  w1 ← read tile_width;
  w2 ← read tile_width;
  w3 ← read tile_width;
  w4 ← read tile_width;
  mret (array [[w1 - 1; 0]; [w2 - 1; w3 - 1]; [0; w4 - 1]; [0; 0]]).

Section WithLibraries.
Context `{Libraries}.

Definition skycoord_corners : Method SkyCoord :=
  n ← nside;
  i ← read ipix;
  '(theta, phi) ← call (boundaries n i None);
  fr ← read frame;
  if bool_decide (fr = "galactic") then
    fr' ← read frame;
    call (astropy_SkyCoord
            (kw_l_b phi (rsub (PrimFloat.div pi 2) theta) "radian" fr'))
  else
    fr' ← read frame;
    call (astropy_SkyCoord
            (kw_ra_dec phi (rsub (PrimFloat.div pi 2) theta) "radian" fr')).

Definition apply_projection (wcs : WCS) : Method ProjectiveTransform :=
  sky ← skycoord_corners;
  corners ← call (to_pixel sky wcs);
  arr ← call (array_of_pair corners);
  src ← call (reshape (transpose arr) 4 2);
  dst ← dst;
  let pt := tf_ProjectiveTransform in
  '(pt', _) ← call (tf_estimate pt src dst);
  mret pt'.

End WithLibraries.

End TileMeta.
Export TileMeta.

(** ** Vocabulary of the statements *)

(** [a == b] between two instances. *)
Definition tile_eq (a b : HipsTileMeta) : result bool :=
  (__eq__ (obj_of b) a).1.

(** A method leaves every stored attribute of the instance as it was. *)
Definition leaves_fields {A} (m : Method A) : Prop :=
  ∀ self, (m self).2 = self.

(** The attributes [__eq__] compares, in the order it reads them, each
    with the value [self] holds for it. *)
Definition compared (self : HipsTileMeta) : list (string * value) :=
  [("order", VInt (order self)); ("ipix", VInt (ipix self));
   ("file_format", VStr (file_format self));
   ("tile_width", VInt (tile_width self))].

(** [other] has the attribute and it equals the value of [self]. *)
Definition agrees (other : pyobj) (nv : string * value) : Prop :=
  ∃ v, other !! nv.1 = Some v ∧ py_eq nv.2 v = true.

(** One comparison step of [__eq__] against the attribute dictionary. *)
Definition step_eq (other : pyobj) (nv : string * value)
  (rest : result bool) : result bool :=
  match other !! nv.1 with
  | None => Raise (AttributeError nv.1)
  | Some v => if py_eq nv.2 v then rest else Ok false
  end.

(** [other] lacks one of the four compared attributes. *)
Definition lacks_attribute (other : pyobj) : Prop :=
  ∃ name, name ∈ ["order"; "ipix"; "file_format"; "tile_width"]
          ∧ other !! name = None.

Definition raises_AttributeError {A} (r : result A) : Prop :=
  ∃ name, r = Raise (AttributeError name).

(** [c in s] for a character [c]. *)
Fixpoint contains (c : Ascii.ascii) (s : string) : bool :=
  match s with
  | EmptyString => false
  | String c' s' => Ascii.eqb c' c || contains c s'
  end.

(** Reading a decimal numeral back, to say what [str] renders. *)
Definition digit_value (c : Ascii.ascii) : option N :=
  let n := N_of_ascii c in
  if bool_decide (48 ≤ n ∧ n ≤ 57)%N then Some (n - 48)%N else None.

Fixpoint read_digits (acc : N) (s : string) : option N :=
  match s with
  | EmptyString => Some acc
  | String c s' => d ← digit_value c; read_digits (acc * 10 + d)%N s'
  end.

Definition read_decimal (s : string) : option Z :=
  match s with
  | EmptyString => None
  | String "-"%char s' =>
      match s' with
      | EmptyString => None
      | _ => n ← read_digits 0 s'; Some (- Z.of_N n)%Z
      end
  | _ => n ← read_digits 0 s; Some (Z.of_N n)
  end.

(** A numeral in its shortest form: no zero in front of other digits,
    and a minus sign only in front of a numeral other than ["0"]. *)
Definition no_leading_zero (s : string) : bool :=
  match s with
  | String "0"%char (String _ _) => false
  | _ => true
  end.

Definition canonical_decimal (s : string) : bool :=
  match s with
  | String "-"%char s' => no_leading_zero s' && negb (bool_decide (s' = "0"))
  | _ => no_leading_zero s
  end.

(** ** Sample data *)

(** The tile of the class docstring. *)
Definition tile_450 : HipsTileMeta :=
  __init__ 3 450 "fits" (Some "galactic") (Some 512).

(** The same tile in the ICRS frame, with the default width. *)
Definition tile_450_icrs : HipsTileMeta :=
  __init__ 3 450 "fits" (Some "icrs") None.

(** An object that has an [order] attribute and nothing else. *)
Definition order_only : pyobj := {[ "order" := VInt 4 ]}.

Definition pixel_in_range (nside pix : Z) : bool :=
  bool_decide (0 < nside)%Z && bool_decide (0 ≤ pix < 12 * nside * nside)%Z.

Definition axis_angles (v : list float) : float * float :=
  match v with
  | [x; y; z] =>
      (if PrimFloat.eqb z 1 then 0%float else PrimFloat.div pi 2,
       if PrimFloat.eqb y 1 then PrimFloat.div pi 2 else 0%float)
  | _ => (0%float, 0%float)
  end.

(** A small binding of the library interface on which the embedding can
    be run: every pixel in range has the corners x, y, z, z; angles are
    read off axis vectors; a sky coordinate is its keyword arguments; the
    projection to pixels keeps the two angle arrays; estimation stores
    nothing and reports success. *)
#[local] Instance axis_libraries : Libraries := {|
  SkyCoord := SkyCoord_kwargs;
  WCS := ()%type;
  ProjectiveTransform := list (list float);
  healpy_boundaries nside pix _ :=
    if pixel_in_range nside pix
    then Ok [[1; 0; 0; 0]; [0; 1; 0; 0]; [0; 0; 1; 1]]%float
    else Raise (ValueError "pixel out of range");
  healpy_vec2ang m :=
    Ok ((fst ∘ axis_angles) <$> m, (snd ∘ axis_angles) <$> m);
  astropy_SkyCoord kwargs := Ok kwargs;
  to_pixel sky _ :=
    match sky with
    | kw_l_b lon lat _ _ | kw_ra_dec lon lat _ _ => Ok (lon, lat)
    end;
  tf_ProjectiveTransform := [[1; 0; 0]; [0; 1; 0]; [0; 0; 1]]%float;
  tf_estimate pt _ _ := Ok (pt, true)
|}.

(** A binding that keeps the first [keep] corners when projecting to
    pixels and whose estimation records the two point sets it is handed;
    [outcome] is what the estimation reports: a success flag or an
    exception. *)
Definition recording_libraries (keep : nat) (outcome : result bool)
  : Libraries := {|
  SkyCoord := SkyCoord_kwargs;
  WCS := ()%type;
  ProjectiveTransform := list (list float) * ndarray;
  healpy_boundaries nside pix _ :=
    if pixel_in_range nside pix
    then Ok [[1; 0; 0; 0]; [0; 1; 0; 0]; [0; 0; 1; 1]]%float
    else Raise (ValueError "pixel out of range");
  healpy_vec2ang m :=
    Ok ((fst ∘ axis_angles) <$> m, (snd ∘ axis_angles) <$> m);
  astropy_SkyCoord kwargs := Ok kwargs;
  to_pixel sky _ :=
    match sky with
    | kw_l_b lon lat _ _ | kw_ra_dec lon lat _ _ =>
        Ok (take keep lon, take keep lat)
    end;
  tf_ProjectiveTransform := ([], array []);
  tf_estimate _ src dst :=
    match outcome with
    | Ok flag => Ok ((src, dst), flag)
    | Raise e => Raise e
    end
|}.

(** The frames astropy knows by name and builds from two angles, each
    with the keyword names of its angles.  The ecliptic frames are
    registered under their full names and take [lon] and [lat]; no frame
    is called ['ecliptic']. *)
Definition astropy_frames : gmap string (string * string) :=
  list_to_map
    [("icrs", ("ra", "dec")); ("fk5", ("ra", "dec")); ("fk4", ("ra", "dec"));
     ("galactic", ("l", "b")); ("supergalactic", ("sgl", "sgb"));
     ("geocentrictrueecliptic", ("lon", "lat"));
     ("barycentrictrueecliptic", ("lon", "lat"));
     ("heliocentrictrueecliptic", ("lon", "lat"))].

Definition kwargs_frame (kwargs : SkyCoord_kwargs) : string :=
  match kwargs with
  | kw_l_b _ _ _ fr | kw_ra_dec _ _ _ fr => fr
  end.

Definition kwargs_angles (kwargs : SkyCoord_kwargs) : string * string :=
  match kwargs with
  | kw_l_b _ _ _ _ => ("l", "b")
  | kw_ra_dec _ _ _ _ => ("ra", "dec")
  end.

(** The constructor as far as names go: the frame has to be a known
    one and the angles have to come under its keywords.  The checks
    astropy makes on the angle values are left out. *)
Definition SkyCoord_by_name (kwargs : SkyCoord_kwargs)
  : result SkyCoord_kwargs :=
  match astropy_frames !! kwargs_frame kwargs with
  | None => Raise (ValueError "unknown coordinate frame")
  | Some angles =>
      if bool_decide (angles = kwargs_angles kwargs) then Ok kwargs
      else Raise (ValueError "unexpected angle keywords")
  end.

(** The binding [axis_libraries] with the constructor that checks names. *)
Definition astropy_frames_libraries : Libraries := {|
  SkyCoord := SkyCoord_kwargs;
  WCS := ()%type;
  ProjectiveTransform := list (list float);
  healpy_boundaries nside pix _ :=
    if pixel_in_range nside pix
    then Ok [[1; 0; 0; 0]; [0; 1; 0; 0]; [0; 0; 1; 1]]%float
    else Raise (ValueError "pixel out of range");
  healpy_vec2ang m :=
    Ok ((fst ∘ axis_angles) <$> m, (snd ∘ axis_angles) <$> m);
  astropy_SkyCoord := SkyCoord_by_name;
  to_pixel sky _ :=
    match sky with
    | kw_l_b lon lat _ _ | kw_ra_dec lon lat _ _ => Ok (lon, lat)
    end;
  tf_ProjectiveTransform := [[1; 0; 0]; [0; 1; 0]; [0; 0; 1]]%float;
  tf_estimate pt _ _ := Ok (pt, true)
|}.

(** The tile of the class docstring in the third frame the docstring
    lists. *)
Definition tile_450_ecliptic : HipsTileMeta :=
  __init__ 3 450 "fits" (Some "ecliptic") (Some 512).

(** A tile whose pixel number is past the last pixel of its order. *)
Definition tile_out_of_range : HipsTileMeta :=
  __init__ 3 768 "fits" None None.

(** A tile whose width is past the signed 64-bit integers. *)
Definition tile_wide : HipsTileMeta :=
  __init__ 0 0 "png" None (Some (2 ^ 63 + 2)%Z).

(** A tile whose frame is spelled with a capital letter. *)
Definition tile_capital_frame : HipsTileMeta :=
  __init__ 3 450 "png" (Some "Galactic") None.

(** A tile of another order and width with the pixel and format of
    [tile_450]. *)
Definition tile_450_order_5 : HipsTileMeta :=
  __init__ 5 450 "fits" (Some "ecliptic") (Some 256).

(** ** Running method bodies *)

(** Unfolds the monad of method bodies down to pairs. *)
Ltac run_method :=
  unfold mbind, Method_bind, mret, Method_ret, read, call; cbn.

Lemma run_bind {A B} (m : Method A) (f : A → Method B) self :
  (m ≫= f) self =
  match m self with
  | (Ok a, self') => f a self'
  | (Raise e, self') => (Raise e, self')
  end.
Proof. reflexivity. Qed.

Lemma obj_of_lookup (t : HipsTileMeta) :
  obj_of t !! "order" = Some (VInt (order t))
  ∧ obj_of t !! "ipix" = Some (VInt (ipix t))
  ∧ obj_of t !! "file_format" = Some (VStr (file_format t))
  ∧ obj_of t !! "tile_width" = Some (VInt (tile_width t)).
Proof. unfold obj_of. repeat split; by simplify_map_eq. Qed.

(** What [a == b] evaluates to on two instances. *)
Lemma tile_eq_unfold (a b : HipsTileMeta) :
  tile_eq a b =
  Ok (bool_decide (order a = order b) && bool_decide (ipix a = ipix b)
      && bool_decide (file_format a = file_format b)
      && bool_decide (tile_width a = tile_width b)).
Proof.
  destruct (obj_of_lookup b) as (Ho & Hi & Hf & Hw).
  unfold tile_eq, __eq__, py_and, attr_eq, getattr. run_method.
  rewrite Ho, Hi, Hf, Hw. cbn.
  repeat (case_bool_decide; cbn; try reflexivity).
Qed.

(** ** Equality of instances *)

(** C2: [a == b] holds exactly when [order], [ipix], [file_format] and
    [tile_width] agree; two instances that agree on these four compare
    equal whatever their frames are, so also when the frames differ. *)
Theorem eq_iff_four_fields :
  (∀ a b : HipsTileMeta,
     tile_eq a b = Ok true ↔
     order a = order b ∧ ipix a = ipix b
     ∧ file_format a = file_format b ∧ tile_width a = tile_width b)
  ∧ (∀ (o i : Z) (ff : string) (w : Z) (fr1 fr2 : string),
       tile_eq (mkHipsTileMeta o i ff fr1 w) (mkHipsTileMeta o i ff fr2 w)
       = Ok true).
Proof.
  split.
  - intros a b. rewrite tile_eq_unfold. split.
    + intros [= Heq].
      repeat (apply andb_prop in Heq as [Heq ?%bool_decide_eq_true]).
      apply bool_decide_eq_true in Heq. done.
    + intros (-> & -> & -> & ->). by rewrite !bool_decide_eq_true_2.
  - intros. rewrite tile_eq_unfold. cbn. by rewrite !bool_decide_eq_true_2.
Qed.

(** Between instances the comparison never raises: it answers [False]
    as soon as one of the four attributes differs. *)
Lemma tile_eq_total (a b : HipsTileMeta) :
  tile_eq a b = Ok true ∨ tile_eq a b = Ok false.
Proof. rewrite tile_eq_unfold. destruct (_ && _); auto. Qed.

Example tile_eq_ignores_frame :
  tile_eq (__init__ 3 450 "fits" (Some "icrs") None)
          (__init__ 3 450 "fits" None None) = Ok true.
Proof. vm_compute. reflexivity. Qed.

(** ** Derived properties *)

Lemma nside_value (self : HipsTileMeta) :
  (0 ≤ order self)%Z → nside self = (Ok (2 ^ order self)%Z, self).
Proof.
  intros Hor. unfold nside, order2nside. run_method.
  by rewrite bool_decide_eq_true_2.
Qed.

(** A negative order is refused, and the refusal is what [nside] raises. *)
Lemma nside_negative_order (self : HipsTileMeta) :
  (order self < 0)%Z → ∃ msg, (nside self).1 = Raise (ValueError msg).
Proof.
  intros Hor. unfold nside, order2nside. run_method.
  rewrite bool_decide_eq_false_2 by lia. by eexists.
Qed.

(** C4: for [order ≥ 0] the [nside] property is exactly the integer
    [2 ^ order]. *)
Theorem nside_pow2 (self : HipsTileMeta) :
  (0 ≤ order self)%Z → (nside self).1 = Ok (2 ^ order self)%Z.
Proof. intros Hor. by rewrite nside_value. Qed.

Lemma nside_pow2_witness : (nside tile_450).1 = Ok 8%Z.
Proof. apply (nside_pow2 tile_450). vm_compute. discriminate. Defined.

(** The same number as a left shift of one, and it is positive. *)
Lemma nside_shiftl (self : HipsTileMeta) :
  (0 ≤ order self)%Z →
  ∃ n, (nside self).1 = Ok n ∧ n = Z.shiftl 1 (order self) ∧ (0 < n)%Z.
Proof.
  intros Hor. exists (2 ^ order self)%Z. rewrite nside_value by done.
  split; [done|]. split; [by rewrite Z.shiftl_mul_pow2, Z.mul_1_l|].
  by apply Z.pow_pos_nonneg.
Qed.

Lemma dst_value (self : HipsTileMeta) :
  dst self =
  (Ok (array [[tile_width self - 1; 0];
              [tile_width self - 1; tile_width self - 1];
              [0; tile_width self - 1]; [0; 0]]%Z), self).
Proof. reflexivity. Qed.

(** What [np.array] makes of the quad with far coordinate [e]: exact
    [int64] entries while [e] fits, exact object entries when [e] is
    outside the unsigned range too, and in between a [float64] array
    with [e] rounded. *)
Lemma array_quad (e : Z) :
  array [[e; 0]; [e; e]; [0; e]; [0; 0]]%Z =
  if bool_decide (- 2 ^ 63 ≤ e < 2 ^ 63)%Z
  then mk_ndarray int64 [[e; 0]; [e; e]; [0; e]; [0; 0]]%Z
  else if bool_decide (2 ^ 63 ≤ e < 2 ^ 64)%Z
  then mk_ndarray float64
         [[round_binary64 e; 0]; [round_binary64 e; round_binary64 e];
          [0; round_binary64 e]; [0; 0]]%Z
  else mk_ndarray object [[e; 0]; [e; e]; [0; e]; [0; 0]]%Z.
Proof.
  assert (int_dtype 0 = int64) as H0 by (vm_compute; reflexivity).
  assert (round_binary64 0 = 0%Z) as Hr0 by (vm_compute; reflexivity).
  unfold array, result_dtype.
  cbn [concat app fmap list_fmap foldl]. rewrite !H0.
  unfold int_dtype. repeat case_bool_decide; cbn; rewrite ?Hr0; reflexivity.
Qed.

Lemma round_binary64_large (v : Z) :
  (2 ^ 63 ≤ v < 2 ^ 64)%Z → (2 ^ 63 ≤ round_binary64 v)%Z.
Proof.
  intros Hv. unfold round_binary64.
  rewrite Z.abs_eq by lia. rewrite Z.sgn_pos by lia.
  assert (Z.log2 v = 63%Z) as -> by (apply Z.log2_unique; lia).
  rewrite bool_decide_eq_false_2 by lia.
  change (63 + 1 - 53)%Z with 11%Z. change (11 - 1)%Z with 10%Z.
  change (2 ^ 11)%Z with 2048%Z. change (2 ^ 10)%Z with 1024%Z.
  assert (2 ^ 52 ≤ v / 2048)%Z by (apply Z.div_le_lower_bound; lia).
  pose proof (Z.mod_pos_bound (v / 2048) 2).
  repeat case_bool_decide; lia.
Qed.

(** C5, as the code has it: for every tile width [w] other than those
    with [2^63 < w ≤ 2^64], the destination quad is exactly the 4 by 2
    array [(w-1, 0), (w-1, w-1), (0, w-1), (0, 0)] in this order, an
    [int64] array while [w - 1] fits and an object array otherwise; for
    a width of 512 it is [(511,0), (511,511), (0,511), (0,0)]. *)
Theorem dst_quad (self : HipsTileMeta) :
  ¬ (2 ^ 63 ≤ tile_width self - 1 < 2 ^ 64)%Z →
  ∃ q, (dst self).1 = Ok q
       ∧ arr_rows q =
         [[tile_width self - 1; 0];
          [tile_width self - 1; tile_width self - 1];
          [0; tile_width self - 1]; [0; 0]]%Z
       ∧ arr_dtype q =
         (if bool_decide (- 2 ^ 63 ≤ tile_width self - 1 < 2 ^ 63)%Z
          then int64 else object)
       ∧ (tile_width self = 512%Z →
          q = mk_ndarray int64 [[511; 0]; [511; 511]; [0; 511]; [0; 0]]%Z).
Proof.
  intros Hw. eexists. rewrite dst_value. split; [reflexivity|].
  rewrite array_quad. rewrite (bool_decide_eq_false_2 (2 ^ 63 ≤ _ < _)%Z) by done.
  case_bool_decide as Hfit.
  - repeat split. intros Hw512. by rewrite Hw512.
  - repeat split. intros Hw512. rewrite Hw512 in Hfit. by destruct Hfit.
Qed.

Lemma dst_quad_witness :
  ∃ q, (dst tile_450).1 = Ok q
       ∧ arr_rows q = [[511; 0]; [511; 511]; [0; 511]; [0; 0]]%Z
       ∧ arr_dtype q = int64
       ∧ (tile_width tile_450 = 512%Z →
          q = mk_ndarray int64 [[511; 0]; [511; 511]; [0; 511]; [0; 0]]%Z).
Proof. apply (dst_quad tile_450). vm_compute. intros [H _]. by apply H. Defined.

(** C5 as worded for every width fails: at [w = 2^63 + 2] the entry
    [w - 1 = 2^63 + 1] is not what the array holds; the array is a
    [float64] one and holds [2^63]. *)
Lemma dst_quad_counterexample :
  ¬ (∃ q, (dst tile_wide).1 = Ok q
          ∧ arr_rows q =
            [[tile_width tile_wide - 1; 0];
             [tile_width tile_wide - 1; tile_width tile_wide - 1];
             [0; tile_width tile_wide - 1]; [0; 0]]%Z).
Proof. intros (q & Hq & Hrows). vm_compute in Hq, Hrows. by simplify_eq. Qed.

Example dst_tile_wide :
  (dst tile_wide).1 =
  Ok (mk_ndarray float64
        [[2 ^ 63; 0]; [2 ^ 63; 2 ^ 63]; [0; 2 ^ 63]; [0; 0]]%Z).
Proof. vm_compute. reflexivity. Qed.

(** In the range left out the entries are the rounded ones. *)
Lemma dst_rounded (self : HipsTileMeta) :
  (2 ^ 63 ≤ tile_width self - 1 < 2 ^ 64)%Z →
  (dst self).1 =
  Ok (mk_ndarray float64
        [[round_binary64 (tile_width self - 1); 0];
         [round_binary64 (tile_width self - 1);
          round_binary64 (tile_width self - 1)];
         [0; round_binary64 (tile_width self - 1)]; [0; 0]]%Z).
Proof.
  intros Hw. rewrite dst_value, array_quad. cbn [fst].
  rewrite bool_decide_eq_false_2 by lia. by rewrite bool_decide_eq_true_2.
Qed.

(** The quad has four rows of two entries whatever the width is. *)
Lemma dst_shape (self : HipsTileMeta) :
  ∃ q, (dst self).1 = Ok q ∧ length (arr_rows q) = 4%nat
       ∧ Forall (λ r, length r = 2%nat) (arr_rows q).
Proof.
  eexists. rewrite dst_value, array_quad. split; [done|].
  repeat case_bool_decide; (split; [done|repeat constructor]).
Qed.

(** *** [str] renders decimal numerals *)

Lemma digit_value_pretty (d : N) :
  (d < 10)%N → digit_value (pretty_N_char d) = Some d.
Proof.
  intros Hd.
  assert (d = 0 ∨ d = 1 ∨ d = 2 ∨ d = 3 ∨ d = 4 ∨ d = 5 ∨ d = 6 ∨ d = 7
          ∨ d = 8 ∨ d = 9)%N as Hcases by lia.
  repeat (destruct Hcases as [->|Hcases]; [reflexivity|]).
  by subst.
Qed.

Lemma read_digits_pretty_go (x : N) :
  ∀ (s : string) (acc : N),
    ∃ k : N, read_digits acc (pretty_N_go x s) = read_digits (acc * 10 ^ k + x) s.
Proof.
  induction (N.lt_wf_0 x) as [x _ IH]. intros s acc.
  destruct (decide (x = 0)%N) as [->|Hx].
  - exists 0%N. rewrite pretty_N_go_0. f_equal. lia.
  - rewrite pretty_N_go_step by lia.
    destruct (IH (x `div` 10)%N) with
      (s := String (pretty_N_char (x `mod` 10)) s) (acc := acc) as [k Hk].
    { apply N.div_lt; lia. }
    exists (k + 1)%N. rewrite Hk. cbn [read_digits].
    rewrite digit_value_pretty by (apply N.mod_lt; lia). cbn.
    f_equal. rewrite N.pow_add_r, N.pow_1_r.
    pose proof (N.div_mod x 10). lia.
Qed.

Lemma read_digits_pretty_pos (p : positive) :
  read_digits 0 (pretty (N.pos p)) = Some (N.pos p).
Proof.
  unfold pretty, pretty_N. rewrite decide_False by done.
  destruct (read_digits_pretty_go (N.pos p) "" 0) as [k ->].
  cbn [read_digits]. f_equal.
Qed.

(** Reading back the rendering of an integer gives the integer: [str]
    is its decimal notation, with a minus sign for negative numbers. *)
Lemma read_decimal_str (n : Z) : read_decimal (str n) = Some n.
Proof.
  unfold str. destruct n as [|p|p]; [reflexivity|..].
  - change (pretty (Z.pos p)) with (pretty (N.pos p)).
    pose proof (read_digits_pretty_pos p) as Hr.
    destruct (pretty (N.pos p)) as [|c s] eqn:Hs; [discriminate|].
    unfold read_decimal.
    destruct (decide (c = "-"%char)) as [->|Hc]; [discriminate|].
    transitivity (n ← read_digits 0 (String c s); Some (Z.of_N n)).
    { destruct c as [[] [] [] [] [] [] [] []]; try reflexivity. by destruct Hc. }
    by rewrite Hr.
  - change (pretty (Z.neg p)) with ("-" +:+ pretty (N.pos p)).
    pose proof (read_digits_pretty_pos p) as Hr.
    destruct (pretty (N.pos p)) as [|c s] eqn:Hs; [discriminate|].
    change (read_decimal ("-" +:+ String c s))
      with (n ← read_digits 0 (String c s); Some (- Z.of_N n)%Z).
    by rewrite Hr.
Qed.

Lemma join_empty_4 (a b c d : string) :
  join "" [a; b; c; d] = a +:+ b +:+ c +:+ d.
Proof. reflexivity. Qed.

Lemma filename_value (self : HipsTileMeta) :
  filename self =
  (Ok ("Npix" +:+ str (ipix self) +:+ "." +:+ file_format self), self).
Proof.
  unfold filename, read. rewrite !run_bind. by rewrite <- join_empty_4.
Qed.

Lemma pretty_N_go_head (x : N) :
  (0 < x)%N → ∀ s, ∃ c rest, pretty_N_go x s = String c rest
                             ∧ c ≠ "0"%char ∧ c ≠ "-"%char.
Proof.
  induction (N.lt_wf_0 x) as [x _ IH]. intros Hx s.
  rewrite pretty_N_go_step by done.
  destruct (decide (x `div` 10 = 0)%N) as [Hdiv|Hdiv].
  - rewrite Hdiv, pretty_N_go_0. eexists _, _. split; [reflexivity|].
    assert (x < 10)%N by (by apply N.div_small_iff in Hdiv).
    rewrite N.mod_small by done.
    assert (x = 1 ∨ x = 2 ∨ x = 3 ∨ x = 4 ∨ x = 5 ∨ x = 6 ∨ x = 7 ∨ x = 8
            ∨ x = 9)%N as Hcases by lia.
    repeat (destruct Hcases as [->|Hcases]; [by split|]). by subst.
  - apply IH; [apply N.div_lt; lia|by apply N.neq_0_lt_0].
Qed.

Lemma no_leading_zero_head (c : Ascii.ascii) (rest : string) :
  c ≠ "0"%char → no_leading_zero (String c rest) = true.
Proof.
  intros Hc. destruct c as [[] [] [] [] [] [] [] []]; try reflexivity.
  by destruct Hc.
Qed.

(** The rendering is the shortest numeral. *)
Lemma canonical_decimal_str (n : Z) : canonical_decimal (str n) = true.
Proof.
  unfold str. destruct n as [|p|p]; [reflexivity|..].
  - change (pretty (Z.pos p)) with (pretty (N.pos p)).
    unfold pretty, pretty_N. rewrite decide_False by done.
    destruct (pretty_N_go_head (N.pos p)) with (s := "")
      as (c & rest & -> & H0 & Hminus); [done|].
    transitivity (no_leading_zero (String c rest));
      [|by apply no_leading_zero_head].
    destruct c as [[] [] [] [] [] [] [] []]; try reflexivity.
    by destruct Hminus.
  - change (pretty (Z.neg p)) with (String "-" (pretty (N.pos p))).
    unfold pretty, pretty_N. rewrite decide_False by done.
    destruct (pretty_N_go_head (N.pos p)) with (s := "")
      as (c & rest & -> & H0 & Hminus); [done|].
    cbn [canonical_decimal]. rewrite no_leading_zero_head by done.
    rewrite bool_decide_eq_false_2; [done|]. intros [= -> _]. by destruct H0.
Qed.

(** C7: [filename] is ["Npix"] followed by the decimal rendering of
    [ipix], a dot and [file_format], the rendering being the shortest
    decimal numeral that reads back as [ipix]; for [ipix = 450] and
    format ['fits'] it is ["Npix450.fits"]. *)
Theorem filename_concat :
  (∀ self : HipsTileMeta,
     ∃ digits : string,
       (filename self).1 =
       Ok ("Npix" +:+ digits +:+ "." +:+ file_format self)
       ∧ read_decimal digits = Some (ipix self)
       ∧ canonical_decimal digits = true)
  ∧ (∀ (o : Z) (fr : string) (w : Z),
       (filename (mkHipsTileMeta o 450 "fits" fr w)).1 = Ok "Npix450.fits").
Proof.
  split.
  - intros self. exists (str (ipix self)). rewrite filename_value.
    split; [done|]. split; [apply read_decimal_str|apply canonical_decimal_str].
  - intros. rewrite filename_value. vm_compute. reflexivity.
Qed.

Example filename_negative_pixel :
  (filename (__init__ 0 (-7) "jpg" None None)).1 = Ok "Npix-7.jpg".
Proof. vm_compute. reflexivity. Qed.

(** *** Paths *)

Lemma path_value (self : HipsTileMeta) :
  path self = (Ok (mkPath "" ["hips"; "tiles"; "tests"; "data"]), self).
Proof. reflexivity. Qed.

Lemma split_no_sep (c : Ascii.ascii) (s : string) :
  contains c s = false → split c s = [s].
Proof.
  induction s as [|c' s IH]; [done|]. cbn.
  destruct (Ascii.eqb c' c); [done|]. cbn. intros Hs. by rewrite IH.
Qed.

(** The file name never starts with a slash, so joining cannot replace
    the directory: the full path stays under [path]. *)
Lemma full_path_under_path (self : HipsTileMeta) :
  ∃ rest, (full_path self).1 =
          Ok (mkPath "" (["hips"; "tiles"; "tests"; "data"] ++ rest)).
Proof.
  exists (names (parse ("Npix" +:+ str (ipix self) +:+ "." +:+ file_format self))).
  reflexivity.
Qed.

Lemma str_no_slash (n : Z) : contains "/" (str n) = false.
Proof.
  assert (∀ x s, contains "/" s = false → contains "/" (pretty_N_go x s) = false)
    as Hgo.
  { intros x. induction (N.lt_wf_0 x) as [x _ IH]. intros s Hs.
    destruct (decide (x = 0)%N) as [->|Hx]; [by rewrite pretty_N_go_0|].
    rewrite pretty_N_go_step by lia. apply IH; [apply N.div_lt; lia|].
    cbn. rewrite Hs. unfold pretty_N_char. by repeat case_match. }
  assert (∀ p, contains "/" (pretty (N.pos p)) = false) as Hpos.
  { intros p. unfold pretty, pretty_N. rewrite decide_False by done.
    by apply Hgo. }
  unfold str. destruct n as [|p|p]; [done|apply Hpos|].
  change (pretty (Z.neg p)) with ("-" +:+ pretty (N.pos p)).
  cbn. apply Hpos.
Qed.

Lemma contains_app (c : Ascii.ascii) (s t : string) :
  contains c (s +:+ t) = contains c s || contains c t.
Proof.
  induction s as [|c' s IH]; [done|].
  change (contains c (String c' s +:+ t))
    with (Ascii.eqb c' c || contains c (s +:+ t)).
  rewrite IH. cbn [contains]. by rewrite orb_assoc.
Qed.

(** When the format has no slash in it, the full path is the directory
    followed by the file name as a single component. *)
Lemma full_path_single_component (self : HipsTileMeta) :
  contains "/" (file_format self) = false →
  ∃ f, (filename self).1 = Ok f
       ∧ (full_path self).1 =
         Ok (mkPath "" ["hips"; "tiles"; "tests"; "data"; f]).
Proof.
  intros Hff. eexists. split; [by rewrite filename_value|].
  set (f := "Npix" +:+ str (ipix self) +:+ "." +:+ file_format self).
  assert (contains "/" f = false) as Hf.
  { unfold f. rewrite !contains_app, str_no_slash, Hff. reflexivity. }
  change ((full_path self).1) with
    (Ok (mkPath "" (["hips"; "tiles"; "tests"; "data"] ++ names (parse f)))).
  do 2 f_equal. unfold parse. cbn [names]. rewrite split_no_sep by done.
  reflexivity.
Qed.

(** The components a string contributes to a path are its
    slash-separated pieces, the empty pieces and the dots left out. *)
Lemma parse_names (f : string) :
  names (parse f) = filter (λ n, n ≠ "" ∧ n ≠ ".") (split "/" f).
Proof.
  unfold parse. cbn [names]. apply list_filter_iff. intros n.
  unfold keep_name. rewrite andb_True, !negb_True, !bool_decide_spec. done.
Qed.

(** C8: whatever the five attributes are, [path] is one fixed relative
    directory, and [full_path] is that directory joined with
    [filename]: a relative path made of the four components of the
    directory followed by the components of the file name; when the
    format has no slash in it the file name is the one component added,
    and the path reads ["hips/tiles/tests/data/"] followed by the file
    name. *)
Theorem path_fixed_full_path_joined :
  (∀ a b : HipsTileMeta, (path a).1 = (path b).1)
  ∧ (∀ self : HipsTileMeta,
       (path self).1 = Ok (mkPath "" ["hips"; "tiles"; "tests"; "data"]))
  ∧ (∀ self : HipsTileMeta,
       ∃ f : string,
         (filename self).1 = Ok f
         ∧ (full_path self).1 =
           Ok (mkPath ""
                 (["hips"; "tiles"; "tests"; "data"]
                  ++ filter (λ n, n ≠ "" ∧ n ≠ ".") (split "/" f))))
  ∧ (∀ self : HipsTileMeta,
       contains "/" (file_format self) = false →
       ∃ (p : Path) (f : string),
         (filename self).1 = Ok f ∧ (full_path self).1 = Ok p
         ∧ p = mkPath "" ["hips"; "tiles"; "tests"; "data"; f]
         ∧ Path_str p = "hips/tiles/tests/data/" +:+ f).
Proof.
  split; [reflexivity|]. split; [reflexivity|]. split.
  - intros self. eexists. split; [by rewrite filename_value|].
    rewrite <- parse_names. reflexivity.
  - intros self Hff.
    destruct (full_path_single_component self Hff) as (f & Hf & Hp).
    eexists _, f. split; [exact Hf|]. split; [exact Hp|]. split; reflexivity.
Qed.

Lemma path_fixed_full_path_joined_witness :
  ∃ (p : Path) (f : string),
    (filename tile_450).1 = Ok f ∧ (full_path tile_450).1 = Ok p
    ∧ p = mkPath "" ["hips"; "tiles"; "tests"; "data"; f]
    ∧ Path_str p = "hips/tiles/tests/data/" +:+ f.
Proof.
  apply (proj2 (proj2 (proj2 path_fixed_full_path_joined)) tile_450).
  vm_compute. reflexivity.
Defined.

Example full_path_str_tile_450 :
  Path_str (mkPath "" ["hips"; "tiles"; "tests"; "data"; "Npix450.fits"])
  = "hips/tiles/tests/data/Npix450.fits".
Proof. reflexivity. Qed.

(** ** Sky corners *)

Lemma boundaries_default_nest `{Libraries} (nside pix : Z) :
  boundaries nside pix None = boundaries nside pix (Some false).
Proof. reflexivity. Qed.

(** [boundaries] is the composition of the two healpy calls, with the
    array of corner vectors transposed in between. *)
Lemma boundaries_compose `{Libraries} (nside pix : Z) (nest : bool) b :
  healpy_boundaries nside pix nest = Ok b →
  boundaries nside pix (Some nest) =
  match healpy_vec2ang (transpose b) with
  | Ok (theta, phi) => Ok (theta, phi)
  | Raise e => Raise e
  end.
Proof.
  intros Hb. unfold boundaries. cbn [default from_option id].
  unfold mbind, result_mbind, result_bind. rewrite Hb.
  by destruct (healpy_vec2ang _) as [[??]|].
Qed.

(** An error of either healpy call comes out of [boundaries] as it is. *)
Lemma boundaries_raises `{Libraries} (nside pix : Z) (nest : bool) e :
  healpy_boundaries nside pix nest = Raise e
  ∨ (∃ b, healpy_boundaries nside pix nest = Ok b
          ∧ healpy_vec2ang (transpose b) = Raise e) →
  boundaries nside pix (Some nest) = Raise e.
Proof.
  intros [Hb|(b & Hb & Hv)].
  - unfold boundaries. cbn [default from_option id].
    unfold mbind, result_mbind, result_bind. by rewrite Hb.
  - rewrite (boundaries_compose _ _ _ b) by done. by rewrite Hv.
Qed.

Lemma skycoord_corners_run `{Libraries} (self : HipsTileMeta) n theta phi :
  (nside self).1 = Ok n →
  boundaries n (ipix self) None = Ok (theta, phi) →
  skycoord_corners self =
  (astropy_SkyCoord
     (if bool_decide (frame self = "galactic")
      then kw_l_b phi (rsub (PrimFloat.div pi 2) theta) "radian" (frame self)
      else kw_ra_dec phi (rsub (PrimFloat.div pi 2) theta) "radian"
             (frame self)), self).
Proof.
  intros Hn Hb. unfold skycoord_corners. rewrite run_bind.
  assert (nside self = (Ok n, self)) as ->.
  { revert Hn. unfold nside. run_method. by intros ->. }
  rewrite run_bind. unfold read at 1. rewrite run_bind. unfold call at 1.
  rewrite Hb. rewrite run_bind. unfold read at 1.
  case_bool_decide; reflexivity.
Qed.

(** With [(theta, phi)] obtained from [boundaries(nside, ipix)], the
    property is the constructor call with [l = phi], [b = pi/2 - theta]
    in the galactic frame when the frame is ['galactic'], and the call
    with [ra = phi], [dec = pi/2 - theta] and the frame itself when the
    frame is ['icrs'] or ['ecliptic']; whether a value comes back is the
    constructor's answer. *)
Lemma skycoord_corners_by_frame `{Libraries} (self : HipsTileMeta)
  (n : Z) (theta phi : list float) :
  frame self ∈ ["icrs"; "galactic"; "ecliptic"] →
  (nside self).1 = Ok n →
  boundaries n (ipix self) None = Ok (theta, phi) →
  (frame self = "galactic" →
   (skycoord_corners self).1 =
   astropy_SkyCoord
     (kw_l_b phi (rsub (PrimFloat.div pi 2) theta) "radian" "galactic"))
  ∧ (frame self = "icrs" ∨ frame self = "ecliptic" →
     (skycoord_corners self).1 =
     astropy_SkyCoord
       (kw_ra_dec phi (rsub (PrimFloat.div pi 2) theta) "radian"
          (frame self))).
Proof.
  intros _ Hn Hb. rewrite (skycoord_corners_run self n theta phi) by done.
  split.
  - intros Hfr. rewrite bool_decide_eq_true_2 by done. by rewrite Hfr.
  - intros Hfr. rewrite bool_decide_eq_false_2; [done|].
    by destruct Hfr as [-> | ->].
Qed.

Lemma skycoord_corners_by_frame_witness :
  (skycoord_corners tile_450).1 =
  Ok (kw_l_b [0; 0x1.921fb54442d18p+0; 0; 0]%float
        [0; 0; 0x1.921fb54442d18p+0; 0x1.921fb54442d18p+0]%float
        "radian" "galactic")
  ∧ (skycoord_corners tile_450_icrs).1 =
    Ok (kw_ra_dec [0; 0x1.921fb54442d18p+0; 0; 0]%float
          [0; 0; 0x1.921fb54442d18p+0; 0x1.921fb54442d18p+0]%float
          "radian" "icrs").
Proof.
  split.
  - refine (proj1 (skycoord_corners_by_frame tile_450 8
                     [0x1.921fb54442d18p+0; 0x1.921fb54442d18p+0; 0; 0]%float
                     [0; 0x1.921fb54442d18p+0; 0; 0]%float _ _ _) _).
    + apply (bool_decide_unpack _). vm_compute. exact I.
    + vm_compute. reflexivity.
    + vm_compute. reflexivity.
    + reflexivity.
  - refine (proj2 (skycoord_corners_by_frame tile_450_icrs 8
                     [0x1.921fb54442d18p+0; 0x1.921fb54442d18p+0; 0; 0]%float
                     [0; 0x1.921fb54442d18p+0; 0; 0]%float _ _ _) _).
    + apply (bool_decide_unpack _). vm_compute. exact I.
    + vm_compute. reflexivity.
    + vm_compute. reflexivity.
    + left. reflexivity.
Defined.

(** When astropy accepts the keywords, the value it builds is the value
    of the property. *)
Lemma skycoord_corners_returns `{Libraries} (self : HipsTileMeta) n theta phi
  (kwargs : SkyCoord_kwargs) (sky : SkyCoord) :
  (nside self).1 = Ok n →
  boundaries n (ipix self) None = Ok (theta, phi) →
  kwargs = (if bool_decide (frame self = "galactic")
            then kw_l_b phi (rsub (PrimFloat.div pi 2) theta) "radian"
                   "galactic"
            else kw_ra_dec phi (rsub (PrimFloat.div pi 2) theta) "radian"
                   (frame self)) →
  astropy_SkyCoord kwargs = Ok sky →
  (skycoord_corners self).1 = Ok sky.
Proof.
  intros Hn Hb -> <-. rewrite (skycoord_corners_run self n theta phi) by done.
  cbn [fst]. f_equal. case_bool_decide as Hfr; [|done]. by rewrite Hfr.
Qed.

(** The angle arithmetic is done once per corner, in binary64. *)
Lemma rsub_length (c : float) (a : list float) : length (rsub c a) = length a.
Proof. unfold rsub. by rewrite length_fmap. Qed.

Example colatitude_to_latitude :
  rsub (PrimFloat.div pi 2) [0; 0x1.921fb54442d18p+0; 0x1.921fb54442d18p+1]%float
  = [0x1.921fb54442d18p+0; 0; -0x1.921fb54442d18p+0]%float.
Proof. vm_compute. reflexivity. Qed.

(** An error raised while the boundary is computed leaves the property
    as the same error. *)
Lemma skycoord_corners_raises `{Libraries} (self : HipsTileMeta) n e :
  (nside self).1 = Ok n →
  boundaries n (ipix self) None = Raise e →
  (skycoord_corners self).1 = Raise e.
Proof.
  intros Hn Hb. unfold skycoord_corners. rewrite run_bind.
  assert (nside self = (Ok n, self)) as ->.
  { revert Hn. unfold nside. run_method. by intros ->. }
  rewrite run_bind. unfold read at 1. rewrite run_bind. unfold call at 1.
  by rewrite Hb.
Qed.

(** C1: the property does not return for the frame ['ecliptic'] that
    the class docstring lists.  The [ra]/[dec] branch hands the name on
    as it is, astropy has no frame of that name, and the constructor's
    error (or an earlier one) is what the property raises. *)
Theorem skycoord_corners_ecliptic_raises (self : HipsTileMeta) :
  frame self = "ecliptic" →
  ∃ e, (@skycoord_corners astropy_frames_libraries self).1 = Raise e.
Proof.
  intros Hfr.
  assert (nside self = (order2nside (order self), self)) as Hn by reflexivity.
  destruct (order2nside (order self)) as [n|e].
  - destruct (@boundaries astropy_frames_libraries n (ipix self) None)
      as [[theta phi]|e] eqn:Hb.
    + rewrite (@skycoord_corners_run astropy_frames_libraries self n theta phi)
        by (by rewrite ?Hn).
      rewrite Hfr. eexists. reflexivity.
    + exists e.
      apply (@skycoord_corners_raises astropy_frames_libraries self n);
        by rewrite ?Hn.
  - exists e. unfold skycoord_corners. rewrite run_bind. by rewrite Hn.
Qed.

Lemma skycoord_corners_ecliptic_raises_witness :
  ∃ e, (@skycoord_corners astropy_frames_libraries tile_450_ecliptic).1
       = Raise e.
Proof. apply skycoord_corners_ecliptic_raises. reflexivity. Defined.

(** The three frames of the docstring side by side: two coordinate sets
    and one refusal. *)
Example skycoord_corners_three_frames :
  (@skycoord_corners astropy_frames_libraries tile_450).1 =
  Ok (kw_l_b [0; 0x1.921fb54442d18p+0; 0; 0]%float
        [0; 0; 0x1.921fb54442d18p+0; 0x1.921fb54442d18p+0]%float
        "radian" "galactic")
  ∧ (@skycoord_corners astropy_frames_libraries tile_450_icrs).1 =
    Ok (kw_ra_dec [0; 0x1.921fb54442d18p+0; 0; 0]%float
          [0; 0; 0x1.921fb54442d18p+0; 0x1.921fb54442d18p+0]%float
          "radian" "icrs")
  ∧ (@skycoord_corners astropy_frames_libraries tile_450_ecliptic).1 =
    Raise (ValueError "unknown coordinate frame").
Proof. repeat split; vm_compute; reflexivity. Qed.

(** ** No operation writes to the instance *)

Lemma leaves_fields_ret {A} (a : A) : leaves_fields (mret a : Method A).
Proof. by intros self. Qed.

Lemma leaves_fields_read {A} (attr : HipsTileMeta → A) :
  leaves_fields (read attr).
Proof. by intros self. Qed.

Lemma leaves_fields_call {A} (r : result A) : leaves_fields (call r).
Proof. by intros self. Qed.

Lemma leaves_fields_bind {A B} (m : Method A) (f : A → Method B) :
  leaves_fields m → (∀ a, leaves_fields (f a)) → leaves_fields (m ≫= f).
Proof.
  intros Hm Hf self. rewrite run_bind. specialize (Hm self).
  destruct (m self) as [[a|e] self']; cbn in *; subst; [apply Hf|done].
Qed.

Create HintDb readonly.
#[local] Hint Resolve leaves_fields_ret leaves_fields_read leaves_fields_call
  : readonly.

(** Walks a method body along its binds, branches and pattern lets. *)
Ltac readonly :=
  repeat first
    [ apply leaves_fields_bind; [|intros ?]
    | progress auto with readonly
    | case_match ].

Lemma path_leaves_fields : leaves_fields path.
Proof. unfold path. readonly. Qed.

Lemma filename_leaves_fields : leaves_fields filename.
Proof. unfold filename. readonly. Qed.

Lemma full_path_leaves_fields : leaves_fields full_path.
Proof.
  unfold full_path. readonly;
    auto using path_leaves_fields, filename_leaves_fields.
Qed.

Lemma nside_leaves_fields : leaves_fields nside.
Proof. unfold nside. readonly. Qed.

Lemma dst_leaves_fields : leaves_fields dst.
Proof. unfold dst. readonly. Qed.

Lemma eq_leaves_fields (other : pyobj) : leaves_fields (__eq__ other).
Proof. unfold __eq__, py_and, attr_eq. readonly. Qed.

Lemma skycoord_corners_leaves_fields `{Libraries} :
  leaves_fields skycoord_corners.
Proof. unfold skycoord_corners. readonly; auto using nside_leaves_fields. Qed.

Lemma apply_projection_leaves_fields `{Libraries} (wcs : WCS) :
  leaves_fields (apply_projection wcs).
Proof.
  unfold apply_projection. readonly;
    auto using skycoord_corners_leaves_fields, dst_leaves_fields.
Qed.

(** X19: none of [path], [filename], [full_path], [nside], [dst],
    [skycoord_corners] and [apply_projection] writes to an attribute of
    the instance: after the evaluation, also one that raises, [order],
    [ipix], [file_format], [frame] and [tile_width] are what they
    were. *)
Theorem operations_never_write `{Libraries} (self : HipsTileMeta) (wcs : WCS) :
  (path self).2 = self
  ∧ (filename self).2 = self
  ∧ (full_path self).2 = self
  ∧ (nside self).2 = self
  ∧ (dst self).2 = self
  ∧ (skycoord_corners self).2 = self
  ∧ (apply_projection wcs self).2 = self.
Proof.
  split; [apply path_leaves_fields|].
  split; [apply filename_leaves_fields|].
  split; [apply full_path_leaves_fields|].
  split; [apply nside_leaves_fields|].
  split; [apply dst_leaves_fields|].
  split; [apply skycoord_corners_leaves_fields|].
  apply apply_projection_leaves_fields.
Qed.

(** Field by field: after any of the operations the instance still holds
    the values it was built with. *)
Lemma leaves_fields_each {A} (m : Method A) (self : HipsTileMeta) :
  leaves_fields m →
  order (m self).2 = order self ∧ ipix (m self).2 = ipix self
  ∧ file_format (m self).2 = file_format self
  ∧ frame (m self).2 = frame self
  ∧ tile_width (m self).2 = tile_width self.
Proof. intros Hm. by rewrite Hm. Qed.

(** ** Comparing with an arbitrary object *)

Lemma eq_run (other : pyobj) (self : HipsTileMeta) :
  (__eq__ other self).1 = foldr (step_eq other) (Ok true) (compared self).
Proof.
  unfold __eq__, py_and, attr_eq, getattr, compared, step_eq.
  unfold mbind, Method_bind, mret, Method_ret, read, call. cbn -[py_eq].
  destruct (other !! "order") as [v1|]; cbn -[py_eq]; [|done].
  destruct (py_eq (VInt (order self)) v1); cbn -[py_eq]; [|done].
  destruct (other !! "ipix") as [v2|]; cbn -[py_eq]; [|done].
  destruct (py_eq (VInt (ipix self)) v2); cbn -[py_eq]; [|done].
  destruct (other !! "file_format") as [v3|]; cbn -[py_eq]; [|done].
  destruct (py_eq (VStr (file_format self)) v3); cbn -[py_eq]; [|done].
  destruct (other !! "tile_width") as [v4|]; cbn -[py_eq]; [|done].
  by destruct (py_eq (VInt (tile_width self)) v4).
Qed.

Lemma foldr_step_eq_raises (other : pyobj) (l : list (string * value))
  (name : string) :
  foldr (step_eq other) (Ok true) l = Raise (AttributeError name) ↔
  ∃ pre v post, l = (pre ++ (name, v) :: post)%list
                ∧ other !! name = None ∧ Forall (agrees other) pre.
Proof.
  induction l as [|[n v] l IH]; cbn [foldr].
  - split; [done|]. intros (pre & v & post & Hl & _). by destruct pre.
  - unfold step_eq at 1. cbn [fst snd]. split.
    + destruct (other !! n) as [w|] eqn:Hn.
      * destruct (py_eq v w) eqn:Hvw; [|done].
        intros (pre & v' & post & -> & Hnone & Hpre)%IH.
        exists ((n, v) :: pre), v', post. repeat split; [done|].
        constructor; [by exists w|done].
      * intros [= <-]. by exists [], v, l.
    + intros (pre & v' & post & Hl & Hnone & Hpre).
      destruct pre as [|nv pre]; simplify_eq/=.
      * by rewrite Hnone.
      * apply Forall_cons in Hpre as [(w & Hw & Hvw) Hpre]. cbn in Hw, Hvw.
        rewrite Hw, Hvw. apply IH. by exists pre, v', post.
Qed.

Lemma foldr_step_eq_false (other : pyobj) (l : list (string * value)) :
  foldr (step_eq other) (Ok true) l = Ok false ↔
  ∃ pre name v post w, l = (pre ++ (name, v) :: post)%list
                       ∧ Forall (agrees other) pre
                       ∧ other !! name = Some w ∧ py_eq v w = false.
Proof.
  induction l as [|[n v] l IH]; cbn [foldr].
  - split; [done|]. intros (pre & ? & ? & ? & ? & Hl & _). by destruct pre.
  - unfold step_eq at 1. cbn [fst snd]. split.
    + destruct (other !! n) as [w|] eqn:Hn; [|done].
      destruct (py_eq v w) eqn:Hvw.
      * intros (pre & n' & v' & post & w' & -> & Hpre & Hw & Hne)%IH.
        exists ((n, v) :: pre), n', v', post, w'. repeat split; [|done..].
        constructor; [by exists w|done].
      * intros _. by exists [], n, v, l, w.
    + intros (pre & n' & v' & post & w' & Hl & Hpre & Hw & Hne).
      destruct pre as [|nv pre]; simplify_eq/=.
      * by rewrite Hw, Hne.
      * apply Forall_cons in Hpre as [(w & Hn & Hvw) Hpre]. cbn in Hn, Hvw.
        rewrite Hn, Hvw. apply IH. by exists pre, n', v', post, w'.
Qed.

Lemma foldr_step_eq_true (other : pyobj) (l : list (string * value)) :
  foldr (step_eq other) (Ok true) l = Ok true ↔ Forall (agrees other) l.
Proof.
  induction l as [|[n v] l IH]; cbn [foldr]; [by split|].
  unfold step_eq at 1. cbn [fst snd]. split.
  - destruct (other !! n) as [w|] eqn:Hn; [|done].
    destruct (py_eq v w) eqn:Hvw; [|done].
    intros Hl%IH. constructor; [by exists w|done].
  - intros [(w & Hn & Hvw) Hl]%Forall_cons. cbn in Hn, Hvw.
    rewrite Hn, Hvw. by apply IH.
Qed.

(** C10, as the code has it: [__eq__] reads [order], [ipix],
    [file_format] and [tile_width] of the other operand in this order,
    with no type check, and stops at the first attribute that differs.
    It raises the attribute error for [name] exactly when the operand
    lacks [name] and has every compared attribute before [name] equal to
    the one of [self]; it returns [False] exactly when some compared
    attribute is present and different while all before it are equal,
    whatever is missing after it; it returns [True] exactly when all
    four are present and equal. *)
Theorem eq_raises_iff (other : pyobj) (self : HipsTileMeta) :
  (∀ name : string,
     (__eq__ other self).1 = Raise (AttributeError name) ↔
     ∃ pre v post, compared self = (pre ++ (name, v) :: post)%list
                   ∧ other !! name = None ∧ Forall (agrees other) pre)
  ∧ ((__eq__ other self).1 = Ok false ↔
     ∃ pre name v post w, compared self = (pre ++ (name, v) :: post)%list
                          ∧ Forall (agrees other) pre
                          ∧ other !! name = Some w ∧ py_eq v w = false)
  ∧ ((__eq__ other self).1 = Ok true ↔ Forall (agrees other) (compared self)).
Proof.
  rewrite eq_run. split; [|split].
  - intros name. apply foldr_step_eq_raises.
  - apply foldr_step_eq_false.
  - apply foldr_step_eq_true.
Qed.

(** Nothing but an attribute error is ever raised by the comparison. *)
Lemma eq_raises_only_AttributeError (other : pyobj) (self : HipsTileMeta) e :
  (__eq__ other self).1 = Raise e → ∃ name, e = AttributeError name.
Proof.
  rewrite eq_run. generalize (compared self). intros l.
  induction l as [|[n v] l IH]; cbn [foldr]; [done|].
  unfold step_eq at 1. cbn [fst snd].
  destruct (other !! n) as [w|]; [|intros [= <-]; by eexists].
  by destruct (py_eq v w).
Qed.

(** An operand without [order] always fails on [order]. *)
Lemma eq_without_order_raises (other : pyobj) (self : HipsTileMeta) :
  other !! "order" = None →
  (__eq__ other self).1 = Raise (AttributeError "order").
Proof.
  intros Ho. rewrite eq_run, foldr_step_eq_raises.
  by exists [], (VInt (order self)), (tail (compared self)).
Qed.

(** An operand whose [order] is present and different gets [False],
    whatever else it lacks. *)
Lemma eq_other_order_false (other : pyobj) (self : HipsTileMeta) (v : value) :
  other !! "order" = Some v → py_eq (VInt (order self)) v = false →
  (__eq__ other self).1 = Ok false.
Proof.
  intros Ho Hv. rewrite eq_run. unfold compared. cbn [foldr].
  unfold step_eq at 1. cbn [fst snd]. by rewrite Ho, Hv.
Qed.

(** The unconditional reading of C10 fails: an object that has only an
    [order] attribute, unequal to the tile's, lacks three of the compared
    attributes, and the comparison returns [False] without raising. *)
Lemma eq_lacking_attribute_counterexample :
  ¬ (lacks_attribute order_only →
     raises_AttributeError (__eq__ order_only tile_450).1).
Proof.
  intros Hclaim.
  destruct Hclaim as [name Hraise].
  - exists "ipix". split; [set_solver|]. reflexivity.
  - vm_compute in Hraise. discriminate.
Qed.

(** ** Array plumbing around the library calls *)

Lemma column_length {A} (j : nat) (m : list (list A)) :
  Forall (λ r, (j < length r)%nat) m → length (column j m) = length m.
Proof.
  unfold column. induction 1 as [|r m Hr _ IH]; [done|]. cbn.
  destruct (lookup_lt_is_Some_2 r j Hr) as [x ->]. cbn. by rewrite IH.
Qed.

(** Transposing an array of [rows] rows and [cols] columns gives [cols]
    rows of [rows] entries: the (3, 4) array of corner vectors becomes
    four vectors of three coordinates. *)
Lemma transpose_shape {A} (m : list (list A)) (rows cols : nat) :
  length m = S rows → Forall (λ r, length r = cols) m →
  length (transpose m) = cols
  ∧ Forall (λ c, length c = S rows) (transpose m).
Proof.
  intros Hrows Hcols. unfold transpose.
  assert (ncols m = cols) as ->.
  { destruct m as [|r m]; [done|]. by apply Forall_cons in Hcols as [? _]. }
  split; [by rewrite length_fmap, length_seq|].
  apply Forall_fmap, Forall_forall. intros j Hj%elem_of_seq. cbn.
  rewrite column_length; [done|].
  eapply Forall_impl; [exact Hcols|]. cbn. intros r ->. lia.
Qed.

Example transpose_3_4 :
  transpose [[1; 2; 3; 4]; [5; 6; 7; 8]; [9; 10; 11; 12]]%Z
  = [[1; 5; 9]; [2; 6; 10]; [3; 7; 11]; [4; 8; 12]]%Z.
Proof. reflexivity. Qed.

(** The source quad of [apply_projection]: the pixel coordinates of the
    four corners, one (x, y) row per corner. *)
Lemma src_rows {A} (x0 x1 x2 x3 y0 y1 y2 y3 : A) :
  (arr ← array_of_pair ([x0; x1; x2; x3], [y0; y1; y2; y3]);
   reshape (transpose arr) 4 2)
  = Ok [[x0; y0]; [x1; y1]; [x2; y2]; [x3; y3]].
Proof. reflexivity. Qed.

(** Any number of corners other than four is refused by the reshape. *)
Lemma src_needs_four_corners {A} (xs ys : list A) (arr : list (list A)) :
  array_of_pair (xs, ys) = Ok arr → length xs ≠ 4%nat →
  ∃ msg, reshape (transpose arr) 4 2 = Raise (ValueError msg).
Proof.
  unfold array_of_pair. cbn [fst snd]. case_bool_decide as Hlen; [|done].
  intros [= <-] Hne. unfold reshape.
  destruct (transpose_shape [xs; ys] 1 (length xs)) as [Hl Hr];
    [done|by repeat constructor|].
  rewrite bool_decide_eq_false_2; [by eexists|].
  intros Hflat. apply Hne.
  assert (length (concat (transpose [xs; ys])) = (length xs * 2)%nat) as Hc.
  { rewrite <- Hl. clear Hl Hflat. induction Hr as [|c l Hc _ IH]; [done|].
    cbn. rewrite length_app, Hc, IH. lia. }
  lia.
Qed.

Section Projection.
Context `{Libraries}.
Variables (wcs : WCS) (self : HipsTileMeta).
Variables (sky : SkyCoord) (corners : list float * list float).
Variables (arr src : list (list float)) (quad : ndarray).
Hypothesis Hsky : (skycoord_corners self).1 = Ok sky.
Hypothesis Hpix : to_pixel sky wcs = Ok corners.
Hypothesis Harr : array_of_pair corners = Ok arr.
Hypothesis Hsrc : reshape (transpose arr) 4 2 = Ok src.
Hypothesis Hdst : (dst self).1 = Ok quad.

Lemma apply_projection_until_estimate :
  (apply_projection wcs self).1 =
  match tf_estimate tf_ProjectiveTransform src quad with
  | Ok (pt, _) => Ok pt
  | Raise e => Raise e
  end.
Proof using All.
  unfold apply_projection. rewrite run_bind.
  pose proof (skycoord_corners_leaves_fields self) as Hs.
  destruct (skycoord_corners self) as [r s]. cbn in Hsky, Hs. subst r s.
  rewrite run_bind. unfold call at 1. rewrite Hpix.
  rewrite run_bind. unfold call at 1. rewrite Harr.
  rewrite run_bind. unfold call at 1. rewrite Hsrc.
  rewrite run_bind. pose proof (dst_leaves_fields self) as Hd.
  destruct (dst self) as [r s]. cbn in Hdst, Hd. subst r s.
  rewrite run_bind. unfold call at 1.
  by destruct (tf_estimate _ _ _) as [[pt flag]|e].
Qed.

(** The transform comes back whatever success flag [estimate] returned:
    the flag is not looked at. *)
Lemma apply_projection_drops_flag pt (flag : bool) :
  tf_estimate tf_ProjectiveTransform src quad = Ok (pt, flag) →
  (apply_projection wcs self).1 = Ok pt.
Proof using All. intros He. by rewrite apply_projection_until_estimate, He. Qed.

(** An exception of [estimate] reaches the caller as it was raised. *)
Lemma apply_projection_estimate_raises e :
  tf_estimate tf_ProjectiveTransform src quad = Raise e →
  (apply_projection wcs self).1 = Raise e.
Proof using All. intros He. by rewrite apply_projection_until_estimate, He. Qed.

End Projection.

(** ** Further properties of [__eq__] *)

(** X1: comparing instances is reflexive and symmetric: every instance
    equals itself, and [a == b] gives what [b == a] gives. *)
Theorem tile_eq_refl_sym :
  (∀ a : HipsTileMeta, tile_eq a a = Ok true)
  ∧ (∀ a b : HipsTileMeta, tile_eq a b = tile_eq b a).
Proof.
  split.
  - intros a. rewrite tile_eq_unfold. by rewrite !bool_decide_eq_true_2.
  - intros a b. rewrite !tile_eq_unfold. f_equal.
    f_equal; [f_equal; [f_equal|]|]; apply bool_decide_ext; split; done.
Qed.

(** X2: comparing instances is transitive. *)
Theorem tile_eq_trans (a b c : HipsTileMeta) :
  tile_eq a b = Ok true → tile_eq b c = Ok true → tile_eq a c = Ok true.
Proof.
  rewrite !tile_eq_unfold. intros [= Hab] [= Hbc]. f_equal.
  repeat (apply andb_prop in Hab as [Hab ?%bool_decide_eq_true]).
  repeat (apply andb_prop in Hbc as [Hbc ?%bool_decide_eq_true]).
  apply bool_decide_eq_true in Hab, Hbc.
  rewrite !bool_decide_eq_true_2; [done|congruence..].
Qed.

Lemma tile_eq_trans_witness : tile_eq tile_450 tile_450_icrs = Ok true.
Proof.
  apply (tile_eq_trans tile_450 (__init__ 3 450 "fits" (Some "ecliptic") None)
           tile_450_icrs); vm_compute; reflexivity.
Defined.

(** X3: between two instances the comparison never raises, and it
    answers [False] exactly when [order], [ipix], [file_format] or
    [tile_width] differ. *)
Theorem tile_eq_false_iff (a b : HipsTileMeta) :
  (tile_eq a b = Ok false ↔
   ¬ (order a = order b ∧ ipix a = ipix b
      ∧ file_format a = file_format b ∧ tile_width a = tile_width b))
  ∧ (∀ e, tile_eq a b ≠ Raise e).
Proof.
  rewrite tile_eq_unfold. split; [|done]. split.
  - intros [= Hf] (Ho & Hi & Hff & Hw).
    by rewrite !bool_decide_eq_true_2 in Hf.
  - intros Hne. f_equal. apply not_true_is_false. intros Ht. apply Hne.
    repeat (apply andb_prop in Ht as [Ht ?%bool_decide_eq_true]).
    apply bool_decide_eq_true in Ht. done.
Qed.

(** X4: the outcome of [__eq__] depends on nothing but the four compared
    attributes: two operands that agree on [order], [ipix],
    [file_format] and [tile_width] (present or missing alike), compared
    with two instances that hold the same four values, give the same
    outcome, whatever the frames and the other attributes are. *)
Theorem eq_reads_only_four (other other' : pyobj) (self self' : HipsTileMeta) :
  (∀ name, name ∈ ["order"; "ipix"; "file_format"; "tile_width"] →
           other !! name = other' !! name) →
  compared self = compared self' →
  (__eq__ other self).1 = (__eq__ other' self').1.
Proof.
  intros Hsame Hself. rewrite !eq_run, <- Hself.
  unfold compared. cbn [foldr]. unfold step_eq. cbn [fst snd].
  rewrite <- !Hsame by set_solver. reflexivity.
Qed.

Lemma eq_reads_only_four_witness :
  (__eq__ (obj_of tile_450) tile_450).1
  = (__eq__ (<["colour" := VStr "red"]> (obj_of tile_450_icrs)) tile_450_icrs).1.
Proof.
  apply eq_reads_only_four; [|reflexivity].
  intros name Hin. apply list_elem_of_In in Hin. cbn in Hin.
  destruct Hin as [<-|[<-|[<-|[<-|[]]]]]; vm_compute; reflexivity.
Defined.

(** X5: [__eq__] writes to no attribute of [self], whatever the other
    operand is and also when it raises. *)
Theorem eq_never_writes (other : pyobj) (self : HipsTileMeta) :
  (__eq__ other self).2 = self.
Proof. apply eq_leaves_fields. Qed.

(** ** Further properties of the file name and the paths *)

Lemma pretty_N_char_digit (d : N) (c : Ascii.ascii) :
  digit_value c = None → Ascii.eqb (pretty_N_char d) c = false.
Proof.
  intros Hc. apply Ascii.eqb_neq. intros <-.
  unfold pretty_N_char in Hc. by repeat case_match.
Qed.

(** The rendering of an integer holds digits and a minus sign only. *)
Lemma str_digits_only (n : Z) (c : Ascii.ascii) :
  digit_value c = None → c ≠ "-"%char → contains c (str n) = false.
Proof.
  intros Hc Hminus.
  assert (∀ x s, contains c s = false → contains c (pretty_N_go x s) = false)
    as Hgo.
  { intros x. induction (N.lt_wf_0 x) as [x _ IH]. intros s Hs.
    destruct (decide (x = 0)%N) as [->|Hx]; [by rewrite pretty_N_go_0|].
    rewrite pretty_N_go_step by lia. apply IH; [apply N.div_lt; lia|].
    cbn [contains]. by rewrite Hs, pretty_N_char_digit. }
  assert (∀ p, contains c (pretty (N.pos p)) = false) as Hpos.
  { intros p. unfold pretty, pretty_N. rewrite decide_False by done.
    by apply Hgo. }
  unfold str. destruct n as [|p|p].
  - change (pretty 0%Z) with "0". cbn [contains].
    rewrite orb_false_r. apply Ascii.eqb_neq. by intros <-.
  - apply Hpos.
  - change (pretty (Z.neg p)) with (String "-" (pretty (N.pos p))).
    cbn [contains]. rewrite Hpos, orb_false_r.
    apply Ascii.eqb_neq. congruence.
Qed.

(** Two strings cut at the first occurrence of a character agree on both
    sides of the cut. *)
Lemma append_sep_inj (c : Ascii.ascii) (s1 s2 t1 t2 : string) :
  contains c s1 = false → contains c s2 = false →
  s1 +:+ String c t1 = s2 +:+ String c t2 → s1 = s2 ∧ t1 = t2.
Proof.
  revert s2. induction s1 as [|a s1 IH]; intros [|b s2]; cbn.
  - intros _ _ [= ->]. done.
  - intros _ Hb [= <- _]. by rewrite Ascii.eqb_refl in Hb.
  - intros Ha _ [= -> _]. by rewrite Ascii.eqb_refl in Ha.
  - intros [_ Ha]%orb_false_elim [_ Hb]%orb_false_elim [= -> Heq].
    destruct (IH s2 Ha Hb Heq) as [-> ->]. done.
Qed.

(** X6: the file name tells the pixel number and the format apart and
    nothing else: two tiles have the same file name exactly when they
    have the same [ipix] and the same [file_format], whatever their
    orders, frames and widths are. *)
Theorem filename_injective (a b : HipsTileMeta) :
  (filename a).1 = (filename b).1 ↔
  ipix a = ipix b ∧ file_format a = file_format b.
Proof.
  rewrite !filename_value. cbn [fst]. split.
  - intros [= Heq].
    apply (append_sep_inj "."%char) in Heq as [Hi Hf];
      [|by apply str_digits_only..].
    split; [|done]. by apply (inj pretty).
  - intros [-> ->]. done.
Qed.

(** X7: the full path is a relative path whose first four components
    are the fixed directory, whatever the format string holds: joining
    the file name never replaces the directory. *)
Theorem full_path_keeps_directory (self : HipsTileMeta) :
  ∃ p, (full_path self).1 = Ok p ∧ root p = ""
       ∧ take 4 (names p) = ["hips"; "tiles"; "tests"; "data"].
Proof.
  destruct (full_path_under_path self) as [rest Hp].
  eexists. split; [exact Hp|]. split; reflexivity.
Qed.

(** X8: when the format has no slash in it, the full path has exactly
    five components, the last being the file name. *)
Theorem full_path_five_components (self : HipsTileMeta) :
  contains "/" (file_format self) = false →
  ∃ p f, (full_path self).1 = Ok p ∧ (filename self).1 = Ok f
         ∧ names p = ["hips"; "tiles"; "tests"; "data"; f].
Proof.
  intros Hff. destruct (full_path_single_component self Hff) as (f & Hf & Hp).
  eexists _, f. split; [exact Hp|]. split; [exact Hf|]. reflexivity.
Qed.

Lemma full_path_five_components_witness :
  ∃ p f, (full_path tile_450).1 = Ok p ∧ (filename tile_450).1 = Ok f
         ∧ names p = ["hips"; "tiles"; "tests"; "data"; f].
Proof. apply full_path_five_components. vm_compute. reflexivity. Defined.

Example full_path_tile_450 :
  (full_path tile_450).1
  = Ok (mkPath "" ["hips"; "tiles"; "tests"; "data"; "Npix450.fits"]).
Proof. vm_compute. reflexivity. Qed.

(** A slash in the format splits the file name into several components. *)
Example full_path_format_with_slash :
  (full_path (__init__ 3 450 "a/../b" None None)).1
  = Ok (mkPath "" ["hips"; "tiles"; "tests"; "data"; "Npix450.a"; ".."; "b"]).
Proof. vm_compute. reflexivity. Qed.

(** ** Further properties of the destination quad *)

(** X9: the four destination corners are pairwise distinct exactly when
    the tile width is not 1; at width 1 all four are the point (0, 0).
    No width is refused: zero and negative widths give negative
    coordinates. *)
Theorem dst_corners_distinct_iff (self : HipsTileMeta) :
  ∃ q, (dst self).1 = Ok q ∧ (NoDup (arr_rows q) ↔ tile_width self ≠ 1%Z).
Proof.
  assert (∀ e : Z, NoDup [[e; 0]; [e; e]; [0; e]; [0; 0]]%Z ↔ e ≠ 0%Z) as Hquad.
  { intros e. split.
    - intros Hnd He. rewrite He in Hnd.
      apply NoDup_cons in Hnd as [Hin _]. apply Hin. set_solver.
    - intros He. repeat (apply NoDup_cons; split); try apply NoDup_nil_2;
        rewrite ?not_elem_of_cons; repeat split;
        try apply not_elem_of_nil; intros [=]; lia. }
  eexists. rewrite dst_value, array_quad. split; [reflexivity|].
  repeat case_bool_decide; cbn [arr_rows]; rewrite Hquad.
  - lia.
  - pose proof (round_binary64_large (tile_width self - 1)). lia.
  - lia.
Qed.

Example dst_width_0 :
  (dst (__init__ 0 0 "png" None (Some 0))).1
  = Ok (mk_ndarray int64 [[-1; 0]; [-1; -1]; [0; -1]; [0; 0]]%Z).
Proof. vm_compute. reflexivity. Qed.

(** ** Further properties of [boundaries] and the sky corners *)

(** X10: an exception of [healpy.boundaries], or of [healpy.vec2ang] on
    the transposed array, comes out of [boundaries] unchanged. *)
Theorem boundaries_passes_errors `{Libraries} (nside pix : Z) (nest : bool)
  (e : exn) :
  healpy_boundaries nside pix nest = Raise e
  ∨ (∃ b, healpy_boundaries nside pix nest = Ok b
          ∧ healpy_vec2ang (transpose b) = Raise e) →
  boundaries nside pix (Some nest) = Raise e.
Proof. apply boundaries_raises. Qed.

Lemma boundaries_passes_errors_witness :
  boundaries 8 768 (Some true) = Raise (ValueError "pixel out of range").
Proof. apply boundaries_passes_errors. left. vm_compute. reflexivity. Defined.

Lemma transpose_three_rows {A} (xs ys zs : list A) (j : nat) (x y z : A) :
  xs !! j = Some x → ys !! j = Some y → zs !! j = Some z →
  transpose [xs; ys; zs] !! j = Some [x; y; z].
Proof.
  intros Hx Hy Hz. unfold transpose. rewrite list_lookup_fmap.
  cbn [ncols]. rewrite lookup_seq_lt by (by eapply lookup_lt_Some).
  cbn. unfold column. cbn. by rewrite Hx, Hy, Hz.
Qed.

(** X11: [boundaries] hands [vec2ang] one vector per corner: when healpy
    returns the coordinate rows [xs], [ys], [zs], the array passed on has
    as many rows as [xs] has entries, its row [j] is
    [(xs[j], ys[j], zs[j])], and the answer of [vec2ang] on it is the
    answer of [boundaries]. *)
Theorem boundaries_corner_rows `{Libraries} (nside pix : Z) (nest : bool)
  (xs ys zs : list float) :
  healpy_boundaries nside pix nest = Ok [xs; ys; zs] →
  ∃ m, length m = length xs
       ∧ (∀ j x y z, xs !! j = Some x → ys !! j = Some y → zs !! j = Some z →
                     m !! j = Some [x; y; z])
       ∧ boundaries nside pix (Some nest) =
         match healpy_vec2ang m with
         | Ok (theta, phi) => Ok (theta, phi)
         | Raise e => Raise e
         end.
Proof.
  intros Hb. exists (transpose [xs; ys; zs]). split; [|split].
  - unfold transpose. by rewrite length_fmap, length_seq.
  - intros j x y z. apply transpose_three_rows.
  - by apply boundaries_compose.
Qed.

Lemma boundaries_corner_rows_witness :
  ∃ m, length m = 4%nat
       ∧ (∀ j x y z, [1; 0; 0; 0]%float !! j = Some x →
                     [0; 1; 0; 0]%float !! j = Some y →
                     [0; 0; 1; 1]%float !! j = Some z →
                     m !! j = Some [x; y; z])
       ∧ boundaries 8 450 (Some false) =
         match healpy_vec2ang m with
         | Ok (theta, phi) => Ok (theta, phi)
         | Raise e => Raise e
         end.
Proof.
  apply (boundaries_corner_rows 8 450 false [1; 0; 0; 0]%float
           [0; 1; 0; 0]%float [0; 0; 1; 1]%float).
  reflexivity.
Defined.

(** X12: when the boundary computation raises, [skycoord_corners] raises
    the same exception: no sky coordinate is built. *)
Theorem skycoord_corners_passes_errors `{Libraries} (self : HipsTileMeta)
  (n : Z) (e : exn) :
  (nside self).1 = Ok n →
  boundaries n (ipix self) None = Raise e →
  (skycoord_corners self).1 = Raise e.
Proof. apply skycoord_corners_raises. Qed.

Lemma skycoord_corners_passes_errors_witness :
  (skycoord_corners tile_out_of_range).1
  = Raise (ValueError "pixel out of range").
Proof.
  apply (skycoord_corners_passes_errors tile_out_of_range 8);
    vm_compute; reflexivity.
Defined.

(** X13: the frame is not validated and is matched exactly: every frame
    string other than ['galactic'], a capitalised or an unknown one
    included, takes the [ra]/[dec] branch and is passed on as it is. *)
Theorem skycoord_corners_other_frames `{Libraries} (self : HipsTileMeta)
  (n : Z) (theta phi : list float) :
  frame self ≠ "galactic" →
  (nside self).1 = Ok n →
  boundaries n (ipix self) None = Ok (theta, phi) →
  (skycoord_corners self).1 =
  astropy_SkyCoord
    (kw_ra_dec phi (rsub (PrimFloat.div pi 2) theta) "radian" (frame self)).
Proof.
  intros Hfr Hn Hb. rewrite (skycoord_corners_run self n theta phi) by done.
  by rewrite bool_decide_eq_false_2.
Qed.

Lemma skycoord_corners_other_frames_witness :
  (skycoord_corners tile_capital_frame).1 =
  Ok (kw_ra_dec [0; 0x1.921fb54442d18p+0; 0; 0]%float
        [0; 0; 0x1.921fb54442d18p+0; 0x1.921fb54442d18p+0]%float
        "radian" "Galactic").
Proof.
  refine (skycoord_corners_other_frames tile_capital_frame 8
            [0x1.921fb54442d18p+0; 0x1.921fb54442d18p+0; 0; 0]%float
            [0; 0x1.921fb54442d18p+0; 0; 0]%float _ _ _).
  - vm_compute. discriminate.
  - vm_compute. reflexivity.
  - vm_compute. reflexivity.
Defined.

(** X14: an instance built without a frame takes the galactic branch:
    the default of [__init__] is the string the property tests for. *)
Theorem default_frame_builds_galactic `{Libraries} (o i : Z) (ff : string)
  (tw : option Z) (n : Z) (theta phi : list float) :
  (nside (__init__ o i ff None tw)).1 = Ok n →
  boundaries n i None = Ok (theta, phi) →
  (skycoord_corners (__init__ o i ff None tw)).1 =
  astropy_SkyCoord
    (kw_l_b phi (rsub (PrimFloat.div pi 2) theta) "radian" "galactic").
Proof.
  intros Hn Hb.
  by rewrite (skycoord_corners_run (__init__ o i ff None tw) n theta phi).
Qed.

Lemma default_frame_builds_galactic_witness :
  (skycoord_corners (__init__ 3 450 "fits" None None)).1 =
  Ok (kw_l_b [0; 0x1.921fb54442d18p+0; 0; 0]%float
        [0; 0; 0x1.921fb54442d18p+0; 0x1.921fb54442d18p+0]%float
        "radian" "galactic").
Proof.
  refine (default_frame_builds_galactic 3 450 "fits" None 8
            [0x1.921fb54442d18p+0; 0x1.921fb54442d18p+0; 0; 0]%float
            [0; 0x1.921fb54442d18p+0; 0; 0]%float _ _).
  - vm_compute. reflexivity.
  - vm_compute. reflexivity.
Defined.

(** ** Further properties of [apply_projection] *)

(** What [apply_projection] does once the sky corners are there. *)
Lemma apply_projection_run `{Libraries} (wcs : WCS) (self : HipsTileMeta)
  (sky : SkyCoord) :
  (skycoord_corners self).1 = Ok sky →
  (apply_projection wcs self).1 =
  (corners ← to_pixel sky wcs;
   arr ← array_of_pair corners;
   src ← reshape (transpose arr) 4 2;
   r ← tf_estimate tf_ProjectiveTransform src
         (array [[tile_width self - 1; 0];
                 [tile_width self - 1; tile_width self - 1];
                 [0; tile_width self - 1]; [0; 0]]%Z);
   mret r.1).
Proof.
  intros Hsky. unfold apply_projection. rewrite run_bind.
  pose proof (skycoord_corners_leaves_fields self) as Hs.
  destruct (skycoord_corners self) as [r s]. cbn in Hsky, Hs. subst r s.
  unfold mbind at 5, result_mbind, result_bind.
  rewrite run_bind. unfold call at 1.
  destruct (to_pixel sky wcs) as [corners|e]; [|done].
  unfold mbind at 4, result_mbind, result_bind.
  rewrite run_bind. unfold call at 1.
  destruct (array_of_pair corners) as [arr|e]; [|done].
  unfold mbind at 3, result_mbind, result_bind.
  rewrite run_bind. unfold call at 1.
  destruct (reshape (transpose arr) 4 2) as [src|e]; [|done].
  rewrite run_bind, dst_value. rewrite run_bind. unfold call at 1.
  unfold mbind, result_mbind, result_bind.
  by destruct (tf_estimate _ _ _) as [[pt flag]|e].
Qed.

(** X15: the estimation is asked to map corner [i] of the tile, at its
    pixel position [(x_i, y_i)] in the target image, onto row [i] of the
    destination array, the one [np.array] builds from [(w-1, 0)],
    [(w-1, w-1)], [(0, w-1)], [(0, 0)], in the order the corners come
    in; its transform is what is returned. *)
Theorem apply_projection_pairs_corners `{Libraries} (wcs : WCS)
  (self : HipsTileMeta) (sky : SkyCoord) (x0 x1 x2 x3 y0 y1 y2 y3 : float) :
  (skycoord_corners self).1 = Ok sky →
  to_pixel sky wcs = Ok ([x0; x1; x2; x3], [y0; y1; y2; y3]) →
  (apply_projection wcs self).1 =
  match
    tf_estimate tf_ProjectiveTransform
      [[x0; y0]; [x1; y1]; [x2; y2]; [x3; y3]]
      (array [[tile_width self - 1; 0];
              [tile_width self - 1; tile_width self - 1];
              [0; tile_width self - 1]; [0; 0]]%Z)
  with
  | Ok (pt, _) => Ok pt
  | Raise e => Raise e
  end.
Proof.
  intros Hsky Hpix. rewrite (apply_projection_run wcs self sky Hsky), Hpix.
  unfold mbind, result_mbind. cbn [result_bind].
  change (array_of_pair ([x0; x1; x2; x3], [y0; y1; y2; y3]))
    with (Ok [[x0; x1; x2; x3]; [y0; y1; y2; y3]]).
  cbn [result_bind].
  change (reshape (transpose [[x0; x1; x2; x3]; [y0; y1; y2; y3]]) 4 2)
    with (Ok [[x0; y0]; [x1; y1]; [x2; y2]; [x3; y3]]).
  cbn [result_bind]. by destruct (tf_estimate _ _ _) as [[pt flag]|e].
Qed.

Lemma apply_projection_pairs_corners_witness :
  (@apply_projection (recording_libraries 4 (Ok true)) () tile_450).1 =
  Ok ([[0; 0]; [0x1.921fb54442d18p+0; 0]; [0; 0x1.921fb54442d18p+0];
       [0; 0x1.921fb54442d18p+0]]%float,
      mk_ndarray int64 [[511; 0]; [511; 511]; [0; 511]; [0; 0]]%Z).
Proof.
  refine (@apply_projection_pairs_corners (recording_libraries 4 (Ok true))
            () tile_450
            (kw_l_b [0; 0x1.921fb54442d18p+0; 0; 0]%float
               [0; 0; 0x1.921fb54442d18p+0; 0x1.921fb54442d18p+0]%float
               "radian" "galactic")
            0 0x1.921fb54442d18p+0 0 0
            0 0 0x1.921fb54442d18p+0 0x1.921fb54442d18p+0 _ _)%float.
  - vm_compute. reflexivity.
  - vm_compute. reflexivity.
Defined.

(** X16: when the projection to pixels gives a number of corners other
    than four, the reshape to (4, 2) raises a value error, and the
    estimation is not reached. *)
Theorem apply_projection_needs_four_corners `{Libraries} (wcs : WCS)
  (self : HipsTileMeta) (sky : SkyCoord) (xs ys : list float) :
  (skycoord_corners self).1 = Ok sky →
  to_pixel sky wcs = Ok (xs, ys) →
  length xs = length ys → length xs ≠ 4%nat →
  ∃ msg, (apply_projection wcs self).1 = Raise (ValueError msg).
Proof.
  intros Hsky Hpix Hlen Hne.
  rewrite (apply_projection_run wcs self sky Hsky), Hpix.
  unfold mbind, result_mbind. cbn [result_bind].
  destruct (array_of_pair (xs, ys)) as [arr|e] eqn:Harr.
  - cbn [result_bind].
    destruct (src_needs_four_corners xs ys arr Harr Hne) as [msg ->].
    by exists msg.
  - unfold array_of_pair in Harr. cbn [fst snd] in Harr.
    by rewrite bool_decide_eq_true_2 in Harr.
Qed.

Lemma apply_projection_needs_four_corners_witness :
  ∃ msg, (@apply_projection (recording_libraries 3 (Ok true)) () tile_450).1
         = Raise (ValueError msg).
Proof.
  refine (@apply_projection_needs_four_corners
            (recording_libraries 3 (Ok true)) () tile_450
            (kw_l_b [0; 0x1.921fb54442d18p+0; 0; 0]%float
               [0; 0; 0x1.921fb54442d18p+0; 0x1.921fb54442d18p+0]%float
               "radian" "galactic")
            [0; 0x1.921fb54442d18p+0; 0]%float
            [0; 0; 0x1.921fb54442d18p+0]%float _ _ _ _).
  - vm_compute. reflexivity.
  - vm_compute. reflexivity.
  - reflexivity.
  - vm_compute. discriminate.
Defined.

(** X17: the success flag that [estimate] returns is not looked at: a
    transform whose estimation reported failure is returned exactly like
    one whose estimation succeeded. *)
Theorem apply_projection_ignores_flag `{Libraries} (wcs : WCS)
  (self : HipsTileMeta) (sky : SkyCoord) (corners : list float * list float)
  (arr src : list (list float)) (pt : ProjectiveTransform) (flag : bool) :
  (skycoord_corners self).1 = Ok sky →
  to_pixel sky wcs = Ok corners →
  array_of_pair corners = Ok arr →
  reshape (transpose arr) 4 2 = Ok src →
  tf_estimate tf_ProjectiveTransform src
    (array [[tile_width self - 1; 0];
            [tile_width self - 1; tile_width self - 1];
            [0; tile_width self - 1]; [0; 0]]%Z) = Ok (pt, flag) →
  (apply_projection wcs self).1 = Ok pt.
Proof.
  intros Hsky Hpix Harr Hsrc Hest.
  rewrite (apply_projection_run wcs self sky Hsky), Hpix.
  unfold mbind, result_mbind. cbn [result_bind].
  rewrite Harr. cbn [result_bind]. rewrite Hsrc. cbn [result_bind].
  by rewrite Hest.
Qed.

Lemma apply_projection_ignores_flag_witness :
  (@apply_projection (recording_libraries 4 (Ok false)) () tile_450).1 =
  (@apply_projection (recording_libraries 4 (Ok true)) () tile_450).1.
Proof.
  etransitivity.
  - eapply (@apply_projection_ignores_flag (recording_libraries 4 (Ok false))
              () tile_450 _ _ _ _ _ false); reflexivity.
  - symmetry.
    eapply (@apply_projection_ignores_flag (recording_libraries 4 (Ok true))
              () tile_450 _ _ _ _ _ true); reflexivity.
Defined.

(** X18: an exception raised while the sky corners are computed, while
    they are projected to pixels, or by the estimation itself reaches
    the caller of [apply_projection] unchanged. *)
Theorem apply_projection_passes_errors `{Libraries} (wcs : WCS)
  (self : HipsTileMeta) (e : exn) :
  (skycoord_corners self).1 = Raise e
  ∨ (∃ sky, (skycoord_corners self).1 = Ok sky ∧ to_pixel sky wcs = Raise e)
  ∨ (∃ sky corners arr src,
       (skycoord_corners self).1 = Ok sky ∧ to_pixel sky wcs = Ok corners
       ∧ array_of_pair corners = Ok arr ∧ reshape (transpose arr) 4 2 = Ok src
       ∧ tf_estimate tf_ProjectiveTransform src
           (array [[tile_width self - 1; 0];
                   [tile_width self - 1; tile_width self - 1];
                   [0; tile_width self - 1]; [0; 0]]%Z) = Raise e) →
  (apply_projection wcs self).1 = Raise e.
Proof.
  intros [Hsky|[(sky & Hsky & Hpix)|(sky & corners & arr & src & Hsky & Hpix
                                      & Harr & Hsrc & Hest)]].
  - unfold apply_projection. rewrite run_bind.
    destruct (skycoord_corners self) as [r s]. cbn in Hsky. by subst r.
  - rewrite (apply_projection_run wcs self sky Hsky), Hpix. done.
  - rewrite (apply_projection_run wcs self sky Hsky), Hpix.
    unfold mbind, result_mbind. cbn [result_bind].
    rewrite Harr. cbn [result_bind]. rewrite Hsrc. cbn [result_bind].
    by rewrite Hest.
Qed.

Lemma apply_projection_passes_errors_witness :
  (@apply_projection (recording_libraries 4 (Ok true)) () tile_out_of_range).1
  = Raise (ValueError "pixel out of range")
  ∧ (@apply_projection
       (recording_libraries 4 (Raise (LibraryError "estimation failed")))
       () tile_450).1
    = Raise (LibraryError "estimation failed").
Proof.
  split.
  - apply (@apply_projection_passes_errors (recording_libraries 4 (Ok true))).
    left. vm_compute. reflexivity.
  - apply (@apply_projection_passes_errors
             (recording_libraries 4 (Raise (LibraryError "estimation failed")))).
    right. right. eexists _, _, _, _.
    repeat split; reflexivity.
Defined.
